(** * skydb/pq/builder.go: the predicate-to-SQL compiler

    A shallow embedding of [builder.go] (package [pq] of skygear-server) and
    the properties of it that the specification states.

    Conventions of the embedding:
    - a Go [string] is a [string] (a sequence of bytes), [==] on strings is
      [String.eqb];
    - a Go slice is a [list]; the [nil] slice and the empty slice are both
      [[]] (the code only ranges over, appends to and takes [len] of them);
    - an [interface{}] value is a [Value];
    - a Go [panic] is the outcome [Panic]; a returned [error] is a value of
      the type [error];
    - the compiler session ([*predicateSqlizerFactory]) is threaded through
      every method that has the pointer receiver. *)

From Stdlib Require Import ZArith NArith Ascii String List Bool Lia.
From Stdlib Require Import PrimFloat FloatOps SpecFloat DecimalString.
From stdpp Require Import base option list strings pretty gmap.

Local Open Scope string_scope.
Local Open Scope list_scope.
Set Warnings "-register-all".

(** ** Strings *)

Module Str.

(** The double-quote character, and the one-character string of it. *)
Definition dquote : ascii := "034"%char.
Definition dq : string := String dquote "".

(** Number of occurrences of the byte [c] in [s]. *)
Fixpoint count (c : ascii) (s : string) : nat :=
  match s with
  | EmptyString => 0
  | String x rest => (if Ascii.eqb x c then 1 else 0) + count c rest
  end.

(** [strings.Repeat(s, n)]. *)
Fixpoint Repeat (s : string) (n : nat) : string :=
  match n with
  | 0 => ""
  | S k => s +:+ Repeat s k
  end.

(** [s[1:]] for a string that is not empty. *)
Definition tail (s : string) : string :=
  match s with
  | EmptyString => ""
  | String _ rest => rest
  end.

(** [strings.Join(parts, sep)]. *)
Fixpoint Join (parts : list string) (sep : string) : string :=
  match parts with
  | [] => ""
  | [p] => p
  | p :: rest => p +:+ sep +:+ Join rest sep
  end.

(** The prefix of [s] before its first NUL byte (all of [s] if it has
    none): [name[:strings.IndexRune(name, 0)]]. *)
Fixpoint untilNUL (s : string) : string :=
  match s with
  | EmptyString => ""
  | String x rest => if Ascii.eqb x "000"%char then "" else String x (untilNUL rest)
  end.

(** [strings.Replace] of every double quote by two of them. *)
Fixpoint doubleQuotes (s : string) : string :=
  match s with
  | EmptyString => ""
  | String x rest =>
      if Ascii.eqb x dquote then String dquote (String dquote (doubleQuotes rest))
      else String x (doubleQuotes rest)
  end.

(** The verb [%d] of [fmt.Sprintf] for an index [n >= 0]. *)
Definition itoa (n : nat) : string := pretty n.

End Str.

(** ** The collaborators of the compiler that are not part of [builder.go] *)

(** [pq.QuoteIdentifier] of lib/pq: the name is cut at its first NUL byte,
    every double quote is doubled, and the result is put between double
    quotes. *)
Definition QuoteIdentifier (name : string) : string :=
  Str.dq +:+ Str.doubleQuotes (Str.untilNUL name) +:+ Str.dq.

(** [sq.Placeholders] of squirrel: a comma and a question mark repeated
    [count] times, without the first comma; the empty string for
    [count < 1]. *)
Definition Placeholders (count : nat) : string :=
  match count with
  | 0 => ""
  | _ => Str.tail (Str.Repeat ",?" count)
  end.

(** The [*database] of the package, as far as the compiler reads it: the
    values of its methods [ID()] and [UserRecordType()]. *)
Record database := {
  database_ID : string;
  database_UserRecordType : string;
}.

(** ** Data model (package [skydb])

    The declarations of package [skydb] are not part of [builder.go]; the
    types below have the fields and the variants [builder.go] uses, named as
    it names them. *)

Definition float64 := float.

(** [skydb.Location] with its accessors [Lng()] and [Lat()]. *)
Record Location := { Lng : float64; Lat : float64 }.

Record RecordID := { RecordID_Type : string; Key : string }.

Record Reference := { Reference_ID : RecordID }.

(** Modelled from the spec: the [Func] variants of the data model.
    [UserDiscoverFunc] carries its arguments by name, and [ArgsByName] gives
    the arguments stored under a name as a slice of [interface{}]. *)
Inductive Func :=
| DistanceFunc (Field : string) (Loc : Location)
| CountFunc (OverallRecords : bool)
| UserDataFunc (DataName : string)
| UserRelationFunc (KeyPath RelationName RelationDirection User : string)
| UserDiscoverFunc (args : list (string * list string)).

(** A value of type [interface{}]: the scalars, a [skydb.Reference], a
    [[]interface{}] and a [skydb.Func]. *)
Inductive Value :=
| VNil
| VBool (b : bool)
| VInt (n : Z)
| VFloat (x : float64)
| VString (s : string)
| VReference (r : Reference)
| VArray (elems : list Value)
| VFunc (fn : Func).

Definition ArgsByName (args : list (string * list string)) (name : string) : list Value :=
  match find (fun kv => String.eqb (fst kv) name) args with
  | Some kv => map VString (snd kv)
  | None => []
  end.

Inductive ExpressionType := Literal | KeyPath | Function.

Record Expression := {
  Expression_Type : ExpressionType;
  Expression_Value : Value;
}.

(** [skydb.Operator], an [int]: the thirteen named operators, and
    [OtherOperator n] for any other value [n] ([OtherOperator 0] is the zero
    value). *)
Inductive Operator :=
| And | Or | Not
| Equal | GreaterThan | LessThan | GreaterThanOrEqual | LessThanOrEqual | NotEqual
| Like | ILike | In
| Functional
| OtherOperator (n : Z).

#[global] Instance Operator_eq_dec : EqDecision Operator.
Proof. solve_decision. Defined.

(** A [skydb.Predicate]; a child is an [interface{}] that holds a predicate
    or an expression. *)
Inductive Predicate :=
| MkPredicate (op : Operator) (children : list Child)
with Child :=
| ChildPredicate (p : Predicate)
| ChildExpression (e : Expression).

Definition Predicate_Operator (p : Predicate) : Operator :=
  match p with MkPredicate op _ => op end.

Definition Predicate_Children (p : Predicate) : list Child :=
  match p with MkPredicate _ children => children end.

(** Modelled from the spec: [Operator.IsCompound], the operators that
    combine sub-predicates (And, Or, Not are the ones
    [newCompoundPredicateSqlizer] has a case for). *)
Definition IsCompound (op : Operator) : bool :=
  match op with
  | And | Or | Not => true
  | _ => false
  end.

(** Modelled from the spec: [Operator.IsBinary], the operators that compare
    two sub-expressions. *)
Definition IsBinary (op : Operator) : bool :=
  match op with
  | Equal | GreaterThan | LessThan | GreaterThanOrEqual | LessThanOrEqual
  | NotEqual | Like | ILike | In => true
  | _ => false
  end.

(** Modelled from the spec: [Predicate.IsEmpty], a predicate with the zero
    operator or without children. *)
Definition IsEmpty (p : Predicate) : bool :=
  match p with
  | MkPredicate (OtherOperator 0) _ => true
  | MkPredicate _ [] => true
  | _ => false
  end.

Inductive SortOrder := Asc | Desc | OtherSortOrder (n : Z).

(** [skydb.Sort]; [Sort_Func] is an interface value, [None] is [nil]. *)
Record Sort := {
  Sort_KeyPath : string;
  Sort_Func : option Func;
  Sort_Order : SortOrder;
}.

Record UserInfo := {
  UserInfo_ID : string;
  UserInfo_Roles : list string;
}.

Definition ACLLevel := string.

Inductive DataType :=
| TypeString | TypeNumber | TypeBoolean | TypeJSON | TypeReference
| TypeLocation | TypeDateTime | TypeAsset | TypeACL | TypeInteger | TypeSequence.

Record FieldType := {
  FieldType_Type : DataType;
  FieldType_Expression : Expression;
}.

(** ** Outcomes *)

(** The values of type [error] the compiler makes, by the message of each. *)
Inductive error :=
| CompoundOperatorNotSupported (op : Operator)
| ComparisonOperatorNotSupported (op : Operator)
| UserDiscoverOnNonUserRecord
| InvalidSort
| UnrecognizedFunc (fn : Func)
| UnknownSortOrder (order : SortOrder).

(** A call returns, or panics with a message. *)
Inductive outcome (A : Type) :=
| Return (a : A)
| Panic (msg : string).
Arguments Return {A} a.
Arguments Panic {A} msg.

(** A Go result pair [(A, error)]: the value with a [nil] error, or the
    error. *)
Inductive result (A : Type) :=
| Ok (a : A)
| Err (e : error).
Arguments Ok {A} a.
Arguments Err {A} e.

(** ** Join/alias manager *)

Record joinedTable := {
  secondaryTable : string;
  primaryColumn : string;
  secondaryColumn : string;
}.

(** [joinedTable.equal] *)
Definition equal (a b : joinedTable) : bool :=
  String.eqb (secondaryTable a) (secondaryTable b)
  && String.eqb (primaryColumn a) (primaryColumn b)
  && String.eqb (secondaryColumn a) (secondaryColumn b).

(** The compiler session. [extraColumns] is a Go map: [None] is the [nil]
    map. *)
Record predicateSqlizerFactory := {
  db : database;
  primaryTable : string;
  joinedTables : list joinedTable;
  extraColumns : option (gmap string FieldType);
}.

Definition set_joinedTables (f : predicateSqlizerFactory) (l : list joinedTable)
  : predicateSqlizerFactory :=
  {| db := db f; primaryTable := primaryTable f;
     joinedTables := l; extraColumns := extraColumns f |}.

Definition set_extraColumns (f : predicateSqlizerFactory) (m : option (gmap string FieldType))
  : predicateSqlizerFactory :=
  {| db := db f; primaryTable := primaryTable f;
     joinedTables := joinedTables f; extraColumns := m |}.

(** [newPredicateSqlizerFactory] *)
Definition newPredicateSqlizerFactory (d : database) (primary : string)
  : predicateSqlizerFactory :=
  {| db := d; primaryTable := primary; joinedTables := []; extraColumns := None |}.

(** [aliasName] *)
Definition aliasName (secondary : string) (indexInJoinedTables : nat) : string :=
  if String.eqb secondary "_user" then "_user"
  else "_t" +:+ Str.itoa indexInJoinedTables.

(** The loop of [createLeftJoin]: the index of the first entry, counted from
    [i], that is equal to [newAlias]. *)
Fixpoint findJoin (newAlias : joinedTable) (tables : list joinedTable) (i : nat)
  : option nat :=
  match tables with
  | [] => None
  | alias :: rest =>
      if equal alias newAlias then Some i else findJoin newAlias rest (S i)
  end.

(** [createLeftJoin]: the alias, and the session after the call. *)
Definition createLeftJoin (secondary primaryCol secondaryCol : string)
    (f : predicateSqlizerFactory) : string * predicateSqlizerFactory :=
  let newAlias := {| secondaryTable := secondary; primaryColumn := primaryCol;
                     secondaryColumn := secondaryCol |} in
  match findJoin newAlias (joinedTables f) 0 with
  | Some i => (aliasName secondary i, f)
  | None =>
      let f' := set_joinedTables f (joinedTables f ++ [newAlias]) in
      (aliasName secondary (length (joinedTables f') - 1), f')
  end.

(** [addExtraColumn] *)
Definition addExtraColumn (key : string) (fieldType : DataType) (expr : Expression)
    (f : predicateSqlizerFactory) : predicateSqlizerFactory :=
  let m := match extraColumns f with
           | None => ∅
           | Some m => m
           end in
  set_extraColumns f
    (Some (<[key := {| FieldType_Type := fieldType; FieldType_Expression := expr |}]> m)).

(** [updateTypemap] *)
Definition updateTypemap (typemap : gmap string FieldType) (f : predicateSqlizerFactory)
  : gmap string FieldType :=
  match extraColumns f with
  | None => typemap
  | Some m => m ∪ typemap
  end.

(** ** Expression/literal compiler *)

(** [fullQuoteIdentifier] *)
Definition fullQuoteIdentifier (aliasName columnName : string) : string :=
  QuoteIdentifier aliasName +:+ "." +:+ QuoteIdentifier columnName.

(** [literalToSQLValue] *)
Definition literalToSQLValue (value : Value) : Value :=
  match value with
  | VReference v => VString (Key (Reference_ID v))
  | _ => value
  end.

(** [literalToSQLOperand] *)
Definition literalToSQLOperand (literal : Value) : string * list Value :=
  match literal with
  | VArray literalValue =>
      let argCount := length literalValue in
      if (0 <? argCount)%nat
      then ("(" +:+ Placeholders (length literalValue) +:+ ")",
            map literalToSQLValue literalValue)
      else ("(NULL)", [])
  | _ => (Placeholders 1, [literalToSQLValue literal])
  end.

(** [funcToSQLOperand] *)
Definition funcToSQLOperand (alias : string) (fn : Func) : outcome (string * list Value) :=
  match fn with
  | DistanceFunc field loc =>
      Return ("ST_Distance_Sphere(" +:+ fullQuoteIdentifier alias field
                +:+ ", ST_MakePoint(?, ?))",
              [VFloat (Lng loc); VFloat (Lat loc)])
  | CountFunc overallRecords =>
      Return (if overallRecords then "COUNT(*) OVER()" else "COUNT(*)", [])
  | UserDataFunc dataName => Return ("_user." +:+ dataName, [])
  | _ => Panic "got unrecgonized skydb.Func"
  end.

(** What every [ToSql] returns: the fragment, its bind arguments, the
    error. *)
Definition sqlResult : Type := string * list Value * option error.

(** [expressionSqlizer.ToSql] *)
Definition expressionSqlizer_ToSql (alias : string) (expr : Expression) : outcome sqlResult :=
  match Expression_Type expr with
  | KeyPath =>
      match Expression_Value expr with
      | VString column => Return (fullQuoteIdentifier alias column, [], None)
      | _ => Panic "interface conversion: interface {} is not string"
      end
  | Function =>
      match Expression_Value expr with
      | VFunc fn =>
          match funcToSQLOperand alias fn with
          | Return (sql, args) => Return (sql, args, None)
          | Panic msg => Panic msg
          end
      | _ => Panic "interface conversion: interface {} is not skydb.Func"
      end
  | Literal =>
      let '(sql, args) := literalToSQLOperand (Expression_Value expr) in
      Return (sql, args, None)
  end.

(** [p.Children[i].(skydb.Expression)] *)
Definition childExpression (children : list Child) (i : nat) : outcome Expression :=
  match children !! i with
  | Some (ChildExpression e) => Return e
  | Some (ChildPredicate _) =>
      Panic "interface conversion: interface {} is not skydb.Expression"
  | None => Panic "index out of range"
  end.

(** ** The sqlizers of predicates *)

(** [containsComparisonPredicateSqlizer.ToSql] *)
Definition containsComparisonPredicateSqlizer_ToSql (alias : string) (p : Predicate)
  : outcome sqlResult :=
  match childExpression (Predicate_Children p) 0 with
  | Panic msg => Panic msg
  | Return lhs =>
  match childExpression (Predicate_Children p) 1 with
  | Panic msg => Panic msg
  | Return rhs =>
      match Expression_Type lhs, Expression_Type rhs with
      | Literal, KeyPath =>
          let buffer := "jsonb_exists(" in
          match expressionSqlizer_ToSql alias rhs with
          | Panic msg => Panic msg
          | Return (_, _, Some err) => Return ("", [], Some err)
          | Return (sqlOperand, opArgs, None) =>
              let buffer := buffer +:+ sqlOperand in
              let args := opArgs in
              let buffer := buffer +:+ ", " in
              match expressionSqlizer_ToSql alias lhs with
              | Panic msg => Panic msg
              | Return (_, _, Some err) => Return ("", [], Some err)
              | Return (sqlOperand, opArgs, None) =>
                  let buffer := buffer +:+ sqlOperand in
                  let args := (args ++ opArgs)%list in
                  let buffer := buffer +:+ ")" in
                  Return (buffer, args, None)
              end
          end
      | KeyPath, Literal =>
          match expressionSqlizer_ToSql alias lhs with
          | Panic msg => Panic msg
          | Return (_, _, Some err) => Return ("", [], Some err)
          | Return (sqlOperand, opArgs, None) =>
              let buffer := sqlOperand in
              let args := opArgs in
              let buffer := buffer +:+ " IN " in
              match expressionSqlizer_ToSql alias rhs with
              | Panic msg => Panic msg
              | Return (_, _, Some err) => Return ("", [], Some err)
              | Return (sqlOperand, opArgs, None) =>
                  let buffer := buffer +:+ sqlOperand in
                  let args := (args ++ opArgs)%list in
                  Return (buffer, args, None)
              end
          end
      | _, _ => Panic "malformed query"
      end
  end end.

(** The text the [switch] of [comparisonPredicateSqlizer.ToSql] writes for
    an operator; [None] is its [default] case. *)
Definition comparisonOperatorSQL (op : Operator) : option string :=
  match op with
  | Equal => Some "="
  | GreaterThan => Some ">"
  | LessThan => Some "<"
  | GreaterThanOrEqual => Some ">="
  | LessThanOrEqual => Some "<="
  | NotEqual => Some "<>"
  | Like => Some " LIKE "
  | ILike => Some " ILIKE "
  | _ => None
  end.

(** [comparisonPredicateSqlizer.ToSql] *)
Definition comparisonPredicateSqlizer_ToSql (alias : string) (p : Predicate)
  : outcome sqlResult :=
  let op := Predicate_Operator p in
  if IsBinary op then
    match childExpression (Predicate_Children p) 0 with
    | Panic msg => Panic msg
    | Return lhs =>
    match childExpression (Predicate_Children p) 1 with
    | Panic msg => Panic msg
    | Return rhs =>
        match expressionSqlizer_ToSql alias lhs with
        | Panic msg => Panic msg
        | Return (_, _, Some err) => Return ("", [], Some err)
        | Return (sqlOperand, opArgs, None) =>
            let buffer := sqlOperand in
            let args := opArgs in
            match comparisonOperatorSQL op with
            | None => Return ("", args, Some (ComparisonOperatorNotSupported op))
            | Some opSQL =>
                let buffer := buffer +:+ opSQL in
                match expressionSqlizer_ToSql alias rhs with
                | Panic msg => Panic msg
                | Return (_, _, Some err) => Return ("", [], Some err)
                | Return (sqlOperand, opArgs, None) =>
                    let buffer := buffer +:+ sqlOperand in
                    let args := (args ++ opArgs)%list in
                    Return (buffer, args, None)
                end
            end
        end
    end end
  else Return ("", [], Some (ComparisonOperatorNotSupported op)).

(** [userRelationPredicateSqlizer.ToSql] *)
Definition userRelationPredicateSqlizer_ToSql (outwardAlias inwardAlias user : string)
  : outcome sqlResult :=
  let outward := negb (String.eqb outwardAlias "") in
  let inward := negb (String.eqb inwardAlias "") in
  if outward && inward then
    Return (fullQuoteIdentifier outwardAlias "left_id" +:+ " = "
              +:+ fullQuoteIdentifier inwardAlias "right_id" +:+ " AND "
              +:+ fullQuoteIdentifier outwardAlias "left_id" +:+ " = ?",
            [VString user], None)
  else if outward then
    Return (fullQuoteIdentifier outwardAlias "left_id" +:+ " = ?", [VString user], None)
  else if inward then
    Return (fullQuoteIdentifier inwardAlias "right_id" +:+ " = ?", [VString user], None)
  else Panic "unexpected value in sqlizer".

(** ** Access-control predicate builder *)

Module JSON.

Definition hex (n : N) : ascii :=
  match n with
  | 0%N => "0" | 1%N => "1" | 2%N => "2" | 3%N => "3"
  | 4%N => "4" | 5%N => "5" | 6%N => "6" | 7%N => "7"
  | 8%N => "8" | 9%N => "9" | 10%N => "a" | 11%N => "b"
  | 12%N => "c" | 13%N => "d" | 14%N => "e" | _ => "f"
  end%char.

(** How [encoding/json] writes one byte of a string: the backslash and the
    double quote get a backslash, newline, carriage return and tab their
    letter, the other bytes below 0x20 and the three HTML characters a
    [\u00xx] escape; every other byte is copied. (Bytes from 0x80 on are
    copied too, as the encoder does for well-formed UTF-8 other than U+2028
    and U+2029.) *)
Definition encodeByte (b : ascii) : string :=
  let n := N_of_ascii b in
  if Ascii.eqb b "\" || Ascii.eqb b Str.dquote then String "\" (String b "")
  else if Ascii.eqb b "010" then "\n"
  else if Ascii.eqb b "013" then "\r"
  else if Ascii.eqb b "009" then "\t"
  else if (n <? 32)%N || Ascii.eqb b "<" || Ascii.eqb b ">" || Ascii.eqb b "&"
  then "\u00" +:+ String (hex (n / 16)) (String (hex (n mod 16)) "")
  else String b "".

Fixpoint encodeBytes (s : string) : string :=
  match s with
  | EmptyString => ""
  | String b rest => encodeByte b +:+ encodeBytes rest
  end.

(** [json.Marshal] of a Go string: the encoded bytes between double quotes,
    and no error. *)
Definition Marshal (s : string) : string * option error :=
  (Str.dq +:+ encodeBytes s +:+ Str.dq, None).

End JSON.

(** The loop of [accessPredicateSqlizer.ToSql] over the roles, writing to
    the buffer [b]. *)
Fixpoint writeRoles (roles : list string) (b : string) : outcome string :=
  match roles with
  | [] => Return b
  | role :: rest =>
      match JSON.Marshal role with
      | (_, Some _) => Panic "unexpected serialze error on role"
      | (escapedRole, None) =>
          let b := b +:+ "_access @> '[{" +:+ Str.dq +:+ "role" +:+ Str.dq +:+ ":" in
          let b := b +:+ escapedRole in
          let b := b +:+ "}]' OR " in
          writeRoles rest b
      end
  end.

(** [accessPredicateSqlizer.ToSql]. The named result [err] is [nil] until
    the last assignment: the [err] of the loop is a variable of the loop
    body. *)
Definition accessPredicateSqlizer_ToSql (databaseID : string) (user : UserInfo)
    (level : ACLLevel) : outcome sqlResult :=
  let sql := "" in
  let args : list Value := [] in
  let err : option error := None in
  let sql := if String.eqb databaseID "" then "" else sql in
  if negb (String.eqb (UserInfo_ID user) "") then
    match writeRoles (UserInfo_Roles user) "(" with
    | Panic msg => Panic msg
    | Return b =>
        let b := b +:+ "_access @> '[{" +:+ Str.dq +:+ "user_id" +:+ Str.dq +:+ ":" in
        let '(escapedID, _) := JSON.Marshal (UserInfo_ID user) in
        match err with
        | Some _ => Panic "unexpected serialze error on user_id"
        | None =>
            let b := b +:+ escapedID in
            let b := b +:+ "}]' OR _access IS NULL OR _owner_id = ?)" in
            let sql := b in
            let args := [VString (UserInfo_ID user)] in
            Return (sql, args, None)
        end
    end
  else Return (sql, args, None).

(** ** Sqlizers *)

(** The values of the interface [sq.Sqlizer] the compiler builds: squirrel's
    [sq.And] and [sq.Or], and the sqlizers of this package. *)
Inductive Sqlizer :=
| SqAnd (parts : list Sqlizer)
| SqOr (parts : list Sqlizer)
| NotSqlizer (predicate : Sqlizer)
| containsComparisonPredicateSqlizer (alias : string) (p : Predicate)
| comparisonPredicateSqlizer (alias : string) (p : Predicate)
| userRelationPredicateSqlizer (outwardAlias inwardAlias user : string)
| accessPredicateSqlizer (databaseID : string) (user : UserInfo) (level : ACLLevel).

Section Conj.

Variable ToSql : Sqlizer -> outcome sqlResult.

(** The loop of squirrel's [conj.join]: the parts are compiled in order; an
    error ends the loop; a part with an empty fragment is skipped with its
    arguments. *)
Fixpoint conj_parts (c : list Sqlizer) (sqlParts : list string) (args : list Value)
  : outcome (result (list string * list Value)) :=
  match c with
  | [] => Return (Ok (sqlParts, args))
  | sqlizer :: rest =>
      match ToSql sqlizer with
      | Panic msg => Panic msg
      | Return (_, _, Some err) => Return (Err err)
      | Return (partSql, partArgs, None) =>
          if String.eqb partSql ""
          then conj_parts rest sqlParts args
          else conj_parts rest (sqlParts ++ [partSql])%list (args ++ partArgs)%list
      end
  end.

(** squirrel's [conj.join], the [ToSql] of [sq.And] and [sq.Or]: the
    fragments of the parts joined by [sep] between parentheses, or the
    empty fragment when there is none. *)
Definition conj_join (c : list Sqlizer) (sep : string) : outcome sqlResult :=
  match conj_parts c [] [] with
  | Panic msg => Panic msg
  | Return (Err err) => Return ("", [], Some err)
  | Return (Ok (sqlParts, args)) =>
      let sql := if (0 <? length sqlParts)%nat
                 then "(" +:+ Str.Join sqlParts sep +:+ ")"
                 else "" in
      Return (sql, args, None)
  end.

End Conj.

(** The method [ToSql] of a sqlizer. *)
Fixpoint ToSql (s : Sqlizer) : outcome sqlResult :=
  match s with
  | SqAnd parts => conj_join ToSql parts " AND "
  | SqOr parts => conj_join ToSql parts " OR "
  | NotSqlizer predicate =>
      (* NotSqlizer.ToSql *)
      match ToSql predicate with
      | Panic msg => Panic msg
      | Return (sql, args, err) =>
          let sql := match err with
                     | Some _ => "NOT (" +:+ sql +:+ ")"
                     | None => sql
                     end in
          Return (sql, args, err)
      end
  | containsComparisonPredicateSqlizer alias p =>
      containsComparisonPredicateSqlizer_ToSql alias p
  | comparisonPredicateSqlizer alias p => comparisonPredicateSqlizer_ToSql alias p
  | userRelationPredicateSqlizer outwardAlias inwardAlias user =>
      userRelationPredicateSqlizer_ToSql outwardAlias inwardAlias user
  | accessPredicateSqlizer databaseID user level =>
      accessPredicateSqlizer_ToSql databaseID user level
  end.

(** ** Predicate compiler and functional predicate translators *)

(** A method of the session: from the session before the call to the value
    returned and the session after it, unless it panics. *)
Definition session (A : Type) : Type :=
  predicateSqlizerFactory -> outcome (A * predicateSqlizerFactory).

(** [newUserRelationFunctionalPredicateSqlizer] *)
Definition newUserRelationFunctionalPredicateSqlizer
    (keyPath relationName relationDirection user : string) : session (result Sqlizer) :=
  fun f =>
    let table := relationName in
    let direction := if String.eqb relationDirection "" then "outward"
                     else relationDirection in
    let primaryColumn :=
      if String.eqb keyPath "_owner" || String.eqb keyPath "" then "_owner_id"
      else keyPath in
    let '(outwardAlias, f) :=
      if String.eqb direction "outward" || String.eqb direction "mutual"
      then createLeftJoin table primaryColumn "right_id" f
      else ("", f) in
    let '(inwardAlias, f) :=
      if String.eqb direction "inward" || String.eqb direction "mutual"
      then createLeftJoin table primaryColumn "left_id" f
      else ("", f) in
    Return (Ok (userRelationPredicateSqlizer outwardAlias inwardAlias user), f).

(** [newUserDiscoverFunctionalPredicateSqlizer] *)
Definition newUserDiscoverFunctionalPredicateSqlizer
    (args : list (string * list string)) : session (result Sqlizer) :=
  fun f =>
    if negb (String.eqb (database_UserRecordType (db f)) (primaryTable f))
    then Return (Err UserDiscoverOnNonUserRecord, f)
    else
      let '(alias, f) := createLeftJoin "_user" "_id" "id" f in
      let sqlizer :=
        containsComparisonPredicateSqlizer alias
          (MkPredicate In
             [ChildExpression {| Expression_Type := KeyPath;
                                 Expression_Value := VString "email" |};
              ChildExpression {| Expression_Type := Literal;
                                 Expression_Value := VArray (ArgsByName args "email") |}]) in
      let f := addExtraColumn "_transient__email" TypeString
                 {| Expression_Type := Function;
                    Expression_Value := VFunc (UserDataFunc "email") |} f in
      let f := addExtraColumn "_transient__username" TypeString
                 {| Expression_Type := Function;
                    Expression_Value := VFunc (UserDataFunc "username") |} f in
      Return (Ok sqlizer, f).

(** [newFunctionalPredicateSqlizer] *)
Definition newFunctionalPredicateSqlizer (predicate : Predicate) : session (result Sqlizer) :=
  fun f =>
    match childExpression (Predicate_Children predicate) 0 with
    | Panic msg => Panic msg
    | Return expr =>
        match Expression_Type expr with
        | Function =>
            match Expression_Value expr with
            | VFunc (UserRelationFunc keyPath relationName relationDirection user) =>
                newUserRelationFunctionalPredicateSqlizer
                  keyPath relationName relationDirection user f
            | VFunc (UserDiscoverFunc args) =>
                newUserDiscoverFunctionalPredicateSqlizer args f
            | _ => Panic "the specified function cannot be used as a functional predicate"
            end
        | _ => Panic "unexpected expression in functional predicate"
        end
    end.

Section Children.

Variable newPredicateSqlizer : Predicate -> session (result Sqlizer).

(** The loops of [newCompoundPredicateSqlizer] over the children of an And
    or an Or: each child is asserted to be a predicate and compiled, in
    order; the first error ends the loop. *)
Fixpoint childSqlizers (children : list Child) : session (result (list Sqlizer)) :=
  fun f =>
    match children with
    | [] => Return (Ok [], f)
    | child :: rest =>
        match child with
        | ChildPredicate q =>
            match newPredicateSqlizer q f with
            | Panic msg => Panic msg
            | Return (Err err, f) => Return (Err err, f)
            | Return (Ok sqlizer, f) =>
                match childSqlizers rest f with
                | Panic msg => Panic msg
                | Return (Err err, f) => Return (Err err, f)
                | Return (Ok sqlizers, f) => Return (Ok (sqlizer :: sqlizers), f)
                end
            end
        | ChildExpression _ =>
            Panic "interface conversion: interface {} is not skydb.Predicate"
        end
    end.

End Children.

(** [newPredicateSqlizer]; the branch of the compound operators is the body
    of [newCompoundPredicateSqlizer]. *)
Fixpoint newPredicateSqlizer (predicate : Predicate) {struct predicate}
  : session (result Sqlizer) :=
  fun f =>
    if IsEmpty predicate then Panic "no sqlizer can be created from an empty predicate"
    else
      match predicate with
      | MkPredicate op children =>
          if bool_decide (op = Functional) then newFunctionalPredicateSqlizer predicate f
          else if IsCompound op then
            match op with
            | And =>
                match childSqlizers newPredicateSqlizer children f with
                | Panic msg => Panic msg
                | Return (Err err, f) => Return (Err err, f)
                | Return (Ok and, f) => Return (Ok (SqAnd and), f)
                end
            | Or =>
                match childSqlizers newPredicateSqlizer children f with
                | Panic msg => Panic msg
                | Return (Err err, f) => Return (Err err, f)
                | Return (Ok or, f) => Return (Ok (SqOr or), f)
                end
            | Not =>
                match children with
                | ChildPredicate pred :: _ =>
                    match newPredicateSqlizer pred f with
                    | Panic msg => Panic msg
                    | Return (Err err, f) => Return (Err err, f)
                    | Return (Ok sqlizer, f) => Return (Ok (NotSqlizer sqlizer), f)
                    end
                | ChildExpression _ :: _ =>
                    Panic "interface conversion: interface {} is not skydb.Predicate"
                | [] => Panic "index out of range"
                end
            | _ => Return (Err (CompoundOperatorNotSupported op), f)
            end
          else if bool_decide (op = In)
          then Return (Ok (containsComparisonPredicateSqlizer (primaryTable f) predicate), f)
          else Return (Ok (comparisonPredicateSqlizer (primaryTable f) predicate), f)
      end.

(** [newAccessControlSqlizer] *)
Definition newAccessControlSqlizer (user : UserInfo) (aclLevel : ACLLevel)
  : session (result Sqlizer) :=
  fun f => Return (Ok (accessPredicateSqlizer (database_ID (db f)) user aclLevel), f).

(** Compilation of a predicate in a session: the sqlizer is made, and asked
    for its SQL. An error of [newPredicateSqlizer] is the error of the
    compilation. *)
Definition compile (predicate : Predicate) (f : predicateSqlizerFactory)
  : outcome (sqlResult * predicateSqlizerFactory) :=
  match newPredicateSqlizer predicate f with
  | Panic msg => Panic msg
  | Return (Err err, f) => Return (("", [], Some err), f)
  | Return (Ok sqlizer, f) =>
      match ToSql sqlizer with
      | Panic msg => Panic msg
      | Return r => Return (r, f)
      end
  end.

(** ** Sort compiler *)

Section SortCompiler.

(** The two services of package [fmt] the sort compiler uses: the verb [%f]
    on a [float64], and [fmt.Sprintf] called with a format and no operand. *)
Variable fmt_f : float64 -> string.
Variable Sprintf0 : string -> string.

(** [funcOrderBySQL] *)
Definition funcOrderBySQL (alias : string) (fn : Func) : result string :=
  match fn with
  | DistanceFunc field loc =>
      Ok ("ST_Distance_Sphere(" +:+ fullQuoteIdentifier alias field
            +:+ ", ST_MakePoint(" +:+ fmt_f (Lng loc) +:+ ", " +:+ fmt_f (Lat loc) +:+ "))")
  | _ => Err (UnrecognizedFunc fn)
  end.

(** [sortOrderOrderBySQL] *)
Definition sortOrderOrderBySQL (order : SortOrder) : result string :=
  match order with
  | Asc => Ok "ASC"
  | Desc => Ok "DESC"
  | _ => Err (UnknownSortOrder order)
  end.

(** The [switch] of [sortOrderBySQL] that makes [expr]. *)
Definition sortExpr (alias : string) (sort : Sort) : result string :=
  if negb (String.eqb (Sort_KeyPath sort) "")
  then Ok (fullQuoteIdentifier alias (Sort_KeyPath sort))
  else match Sort_Func sort with
       | Some fn => funcOrderBySQL alias fn
       | None => Err InvalidSort
       end.

(** [sortOrderBySQL]: the result is a fragment or an error; it has no bind
    arguments. *)
Definition sortOrderBySQL (alias : string) (sort : Sort) : result string :=
  match sortExpr alias sort with
  | Err err => Err err
  | Ok expr =>
      match sortOrderOrderBySQL (Sort_Order sort) with
      | Err err => Err err
      | Ok order => Ok (Sprintf0 (expr +:+ " " +:+ order))
      end
  end.

End SortCompiler.

(** ** Rendering the joins *)

(** What [addJoinsToSelectBuilder] asks of squirrel's [sq.SelectBuilder]: a
    builder is the calls of [LeftJoin] and [Distinct] made on it, in
    order. *)
Inductive builderCall :=
| LeftJoin (join : string)
| Distinct.

Definition SelectBuilder : Type := list builderCall.

Section Joins.

(** The method [tableName] of [*database]: the qualified name of a table. *)
Variable tableName : string -> string.

(** The join clause of [addJoinsToSelectBuilder] for the entry [alias] of
    the join list of a session on [primary], under the name
    [aliasName]. *)
Definition joinClause (primary : string) (alias : joinedTable) (aliasName : string)
  : string :=
  tableName (secondaryTable alias) +:+ " AS " +:+ QuoteIdentifier aliasName
    +:+ " ON " +:+ fullQuoteIdentifier primary (primaryColumn alias)
    +:+ " = " +:+ fullQuoteIdentifier aliasName (secondaryColumn alias).

(** The loop of [addJoinsToSelectBuilder] over the entries from the index
    [i] on. *)
Fixpoint addJoinClauses (primary : string) (tables : list joinedTable) (i : nat)
    (q : SelectBuilder) : SelectBuilder :=
  match tables with
  | [] => q
  | alias :: rest =>
      let name := aliasName (secondaryTable alias) i in
      addJoinClauses primary rest (S i) (q ++ [LeftJoin (joinClause primary alias name)])
  end.

(** [addJoinsToSelectBuilder] *)
Definition addJoinsToSelectBuilder (q : SelectBuilder) (f : predicateSqlizerFactory)
  : SelectBuilder :=
  let q := addJoinClauses (primaryTable f) (joinedTables f) 0 q in
  if (0 <? length (joinedTables f))%nat then q ++ [Distinct] else q.

End Joins.

(** * Vocabulary of the properties *)

(** ** Sessions and join requests *)

(** A new session on the table [note]. *)
Definition sampleSession : predicateSqlizerFactory :=
  newPredicateSqlizerFactory
    {| database_ID := "_public"; database_UserRecordType := "user" |} "note".

(** A request for the join [spec]. *)
Definition requestJoin (spec : joinedTable) (f : predicateSqlizerFactory)
  : string * predicateSqlizerFactory :=
  createLeftJoin (secondaryTable spec) (primaryColumn spec) (secondaryColumn spec) f.

(** The session after the requests for the joins [specs], in order. *)
Definition requestJoins (specs : list joinedTable) (f : predicateSqlizerFactory)
  : predicateSqlizerFactory :=
  foldl (fun f spec => snd (requestJoin spec f)) f specs.

Definition followOutward : joinedTable :=
  {| secondaryTable := "_follow"; primaryColumn := "_owner_id";
     secondaryColumn := "right_id" |}.

Definition followInward : joinedTable :=
  {| secondaryTable := "_follow"; primaryColumn := "_owner_id";
     secondaryColumn := "left_id" |}.

(** ** Expressions and predicates *)

(** The expression of a literal, and of a key path. *)
Definition literalExpression (v : Value) : Expression :=
  {| Expression_Type := Literal; Expression_Value := v |}.

Definition keyPathExpression (column : string) : Expression :=
  {| Expression_Type := KeyPath; Expression_Value := VString column |}.

(** The predicate [column = 1]. *)
Definition equalsOne (column : string) : Predicate :=
  MkPredicate Equal [ChildExpression (keyPathExpression column);
                     ChildExpression (literalExpression (VInt 1))].

(** The functional predicate of a UserDiscoverFunc. *)
Definition userDiscoverPredicate (args : list (string * list string)) : Predicate :=
  MkPredicate Functional
    [ChildExpression {| Expression_Type := Function;
                        Expression_Value := VFunc (UserDiscoverFunc args) |}].

(** What the fragment of a literal depends on: whether the literal is an
    array, and the length of the array. *)
Definition literalShape (v : Value) : option nat :=
  match v with
  | VArray elems => Some (length elems)
  | _ => None
  end.

(** ** Supported predicate trees *)

(** The eight binary comparisons. *)
Definition isComparison (op : Operator) : bool :=
  match op with
  | Equal | GreaterThan | LessThan | GreaterThanOrEqual | LessThanOrEqual
  | NotEqual | Like | ILike => true
  | _ => false
  end.

(** An expression the expression compiler has a case for: a key path with a
    column name, a function that is an operand (distance, count, user data),
    a literal. *)
Definition supportedExpression (e : Expression) : bool :=
  match Expression_Type e, Expression_Value e with
  | KeyPath, VString _ => true
  | Function, VFunc (DistanceFunc _ _) => true
  | Function, VFunc (CountFunc _) => true
  | Function, VFunc (UserDataFunc _) => true
  | Literal, _ => true
  | _, _ => false
  end.

(** The two pairings of an In: a literal and a key path, or a key path and a
    literal. *)
Definition supportedInPair (lhs rhs : Expression) : bool :=
  match Expression_Type lhs, Expression_Type rhs with
  | Literal, KeyPath => supportedExpression rhs
  | KeyPath, Literal => supportedExpression lhs
  | _, _ => false
  end.

(** A predicate tree built from the supported operators: an And or Or of at
    least one supported predicate, a Not of one, a comparison of two
    supported expressions, an In of a supported pair. *)
Fixpoint supported (p : Predicate) : bool :=
  match p with
  | MkPredicate op children =>
      match op with
      | And | Or =>
          match children with
          | [] => false
          | _ => forallb (fun c => match c with
                                   | ChildPredicate q => supported q
                                   | ChildExpression _ => false
                                   end) children
          end
      | Not =>
          match children with
          | [ChildPredicate q] => supported q
          | _ => false
          end
      | In =>
          match children with
          | [ChildExpression lhs; ChildExpression rhs] => supportedInPair lhs rhs
          | _ => false
          end
      | Functional | OtherOperator _ => false
      | _ =>
          match children with
          | [ChildExpression lhs; ChildExpression rhs] =>
              supportedExpression lhs && supportedExpression rhs
          | _ => false
          end
      end
  end.

Definition samplePredicate : Predicate :=
  MkPredicate And
    [ChildPredicate (equalsOne "a");
     ChildPredicate
       (MkPredicate Not
          [ChildPredicate
             (MkPredicate In
                [ChildExpression (keyPathExpression "b");
                 ChildExpression (literalExpression (VArray [VInt 1; VInt 2]))])]);
     ChildPredicate
       (MkPredicate Or
          [ChildPredicate
             (MkPredicate Like
                [ChildExpression (keyPathExpression "c");
                 ChildExpression (literalExpression (VString "x%"))]);
           ChildPredicate
             (MkPredicate In
                [ChildExpression (literalExpression (VString "red"));
                 ChildExpression (keyPathExpression "tags")])])].

(** The names an expression puts into the text of its fragment: the column
    of a key path, the field of a distance, the name of a user datum. *)
Definition expressionNames (e : Expression) : list string :=
  match Expression_Type e, Expression_Value e with
  | KeyPath, VString column => [column]
  | Function, VFunc (DistanceFunc field _) => [field]
  | Function, VFunc (UserDataFunc dataName) => [dataName]
  | _, _ => []
  end.

Fixpoint predicateNames (p : Predicate) : list string :=
  match p with
  | MkPredicate _ children =>
      flat_map (fun c => match c with
                         | ChildPredicate q => predicateNames q
                         | ChildExpression e => expressionNames e
                         end) children
  end.

(** [P] holds of the child [c] if [c] is a predicate. *)
Definition childHolds (P : Predicate -> Prop) (c : Child) : Prop :=
  match c with
  | ChildPredicate q => P q
  | ChildExpression _ => True
  end.

(** ** Question marks and percent signs *)

(** A text without a question mark. *)
Definition noQuestionMark (s : string) : Prop := Str.count "?" s = 0.

(** A text without a percent sign. *)
Definition noPercent (s : string) : Prop := Str.count "%" s = 0.

(** The question marks of a list of fragments. *)
Definition questionMarks (sqlParts : list string) : nat :=
  foldr (fun p n => Str.count "?" p + n) 0 sqlParts.

(** A fragment with as many question marks as bind arguments, and no
    error. *)
Definition placeholdersMatch (r : outcome sqlResult) : Prop :=
  exists sql args, r = Return (sql, args, None) /\ Str.count "?" sql = length args.

(** ** The access-control fragment *)

Definition alice : UserInfo :=
  {| UserInfo_ID := "alice"; UserInfo_Roles := ["admin"] |}.

(** The text the loop over the roles writes for one role. *)
Definition roleClause (role : string) : string :=
  "_access @> '[{" +:+ Str.dq +:+ "role" +:+ Str.dq +:+ ":"
    +:+ fst (JSON.Marshal role) +:+ "}]' OR ".

Fixpoint roleClauses (roles : list string) : string :=
  match roles with
  | [] => ""
  | role :: rest => roleClause role +:+ roleClauses rest
  end.

(** The fragment of [accessPredicateSqlizer.ToSql] for a user with an id. *)
Definition accessFragment (user : UserInfo) : string :=
  "(" +:+ roleClauses (UserInfo_Roles user)
    +:+ "_access @> '[{" +:+ Str.dq +:+ "user_id" +:+ Str.dq +:+ ":"
    +:+ fst (JSON.Marshal (UserInfo_ID user))
    +:+ "}]' OR _access IS NULL OR _owner_id = ?)".

(** ** Sorts, and package [fmt] *)

Module Fmt.

(** The decimal digits of [n]. *)
Definition decimal (n : N) : string := NilZero.string_of_uint (N.to_uint n).

Definition pad6 (digits : string) : string :=
  Str.Repeat "0" (6 - String.length digits) +:+ digits.

(** The value [m * 2^e] with six digits after the point, rounded to the
    nearest, a tie to the even digit. *)
Definition fixed6 (m : positive) (e : Z) : string :=
  let scaled :=
    if (0 <=? e)%Z then (Npos m * 2 ^ Z.to_N e * 1000000)%N
    else
      let n := (Npos m * 1000000)%N in
      let d := (2 ^ Z.to_N (- e))%N in
      let q := (n / d)%N in
      let r := (n mod d)%N in
      if (d <? 2 * r)%N || ((2 * r =? d)%N && N.odd q) then (q + 1)%N else q in
  decimal (scaled / 1000000) +:+ "." +:+ pad6 (decimal (scaled mod 1000000)).

(** The verb [%f] of package [fmt] on a [float64]: six digits after the
    point, and [NaN], [+Inf], [-Inf]. *)
Definition verb_f (x : float64) : string :=
  match Prim2SF x with
  | S754_zero s => (if s then "-" else "") +:+ "0.000000"
  | S754_infinity s => if s then "-Inf" else "+Inf"
  | S754_nan => "NaN"
  | S754_finite s m e => (if s then "-" else "") +:+ fixed6 m e
  end.

(** [fmt.Sprintf] of a format without a percent sign, and no operand: the
    format. *)
Definition verbatim (format : string) : string := format.

End Fmt.

(** A sort by the distance of [field] to [loc]. *)
Definition distanceSort (field : string) (loc : Location) (descending : bool) : Sort :=
  {| Sort_KeyPath := "";
     Sort_Func := Some (DistanceFunc field loc);
     Sort_Order := if descending then Desc else Asc |}.

Definition sampleLocation : Location := {| Lng := 114.5%float; Lat := 22.25%float |}.

(** ** Sessions, extra columns and functional predicates *)

#[global] Instance joinedTable_eq_dec : EqDecision joinedTable.
Proof. solve_decision. Defined.

(** The extra column registered under [key], if any (a [nil] map has
    none). *)
Definition extraColumn (f : predicateSqlizerFactory) (key : string) : option FieldType :=
  match extraColumns f with
  | Some m => m !! key
  | None => None
  end.

(** The session [f'] is the session [f] with more joins at the end of its
    list, and with the extra columns of [f] still registered. *)
Definition sessionGrows (f f' : predicateSqlizerFactory) : Prop :=
  db f' = db f
  /\ primaryTable f' = primaryTable f
  /\ (exists more, joinedTables f' = joinedTables f ++ more)
  /\ (NoDup (joinedTables f) -> NoDup (joinedTables f'))
  /\ (forall key, is_Some (extraColumn f key) -> is_Some (extraColumn f' key)).

(** The functional predicate of a UserRelationFunc. *)
Definition userRelationPredicate (keyPath relationName relationDirection user : string)
  : Predicate :=
  MkPredicate Functional
    [ChildExpression
       {| Expression_Type := Function;
          Expression_Value :=
            VFunc (UserRelationFunc keyPath relationName relationDirection user) |}].

(** The directions [newUserRelationFunctionalPredicateSqlizer] requests a
    join for. *)
Definition knownDirection (direction : string) : bool :=
  String.eqb direction "" || String.eqb direction "outward"
  || String.eqb direction "inward" || String.eqb direction "mutual".

(** The functions that make a functional predicate. *)
Definition predicateFunction (v : Value) : bool :=
  match v with
  | VFunc (UserRelationFunc _ _ _ _) => true
  | VFunc (UserDiscoverFunc _) => true
  | _ => false
  end.

(** The field type of a transient column of user data. *)
Definition transientColumn (dataName : string) : FieldType :=
  {| FieldType_Type := TypeString;
     FieldType_Expression := {| Expression_Type := Function;
                                Expression_Value := VFunc (UserDataFunc dataName) |} |}.

(** The sorts [sortOrderBySQL] has a fragment for: a key path, or else a
    distance, and the order Asc or Desc. *)
Definition sortCompiles (sort : Sort) : bool :=
  (negb (String.eqb (Sort_KeyPath sort) "")
   || match Sort_Func sort with
      | Some (DistanceFunc _ _) => true
      | _ => false
      end)
  && match Sort_Order sort with
     | Asc | Desc => true
     | OtherSortOrder _ => false
     end.

(** The column of the primary table a UserRelationFunc joins on. *)
Definition relationColumn (keyPath : string) : string :=
  if decide (keyPath = "_owner" \/ keyPath = "") then "_owner_id" else keyPath.

(** The two joins of a relation. *)
Definition outwardJoin (relationName keyPath : string) : joinedTable :=
  {| secondaryTable := relationName; primaryColumn := relationColumn keyPath;
     secondaryColumn := "right_id" |}.

Definition inwardJoin (relationName keyPath : string) : joinedTable :=
  {| secondaryTable := relationName; primaryColumn := relationColumn keyPath;
     secondaryColumn := "left_id" |}.

(** The join of a discovery of users. *)
Definition userJoin : joinedTable :=
  {| secondaryTable := "_user"; primaryColumn := "_id"; secondaryColumn := "id" |}.

(** A new session on the user record table. *)
Definition userSession : predicateSqlizerFactory :=
  newPredicateSqlizerFactory
    {| database_ID := "_public"; database_UserRecordType := "user" |} "user".

(** The children a functional predicate, a comparison and an In are
    compiled from: the first child, or the first two, as the compiler reads
    them. *)
Definition functionalChildren (children : list Child) : bool :=
  match children with
  | ChildExpression e :: _ =>
      match Expression_Type e with
      | Function => predicateFunction (Expression_Value e)
      | _ => false
      end
  | _ => false
  end.

Definition comparisonChildren (children : list Child) : bool :=
  match children with
  | ChildExpression lhs :: ChildExpression rhs :: _ =>
      supportedExpression lhs && supportedExpression rhs
  | _ => false
  end.

Definition containsChildren (children : list Child) : bool :=
  match children with
  | ChildExpression lhs :: ChildExpression rhs :: _ => supportedInPair lhs rhs
  | _ => false
  end.

(** A discovery of users next to a comparison and a child that is no
    predicate. *)
Definition discoverChildren : list Child :=
  [ChildPredicate (equalsOne "a");
   ChildPredicate (userDiscoverPredicate [("email", ["a@example.com"])]);
   ChildExpression (keyPathExpression "b")].

(** A relation predicate next to a comparison. *)
Definition relationAndComparison : Predicate :=
  MkPredicate And
    [ChildPredicate (userRelationPredicate "" "_follow" "mutual" "u1");
     ChildPredicate (equalsOne "a")].

(** * Properties *)

(** ** Strings *)

Lemma count_app c (s t : string) : Str.count c (s +:+ t) = Str.count c s + Str.count c t.
Proof. induction s as [|x s IH]; simpl; [done | rewrite IH; lia]. Qed.

Lemma count_untilNUL c s : Str.count c (Str.untilNUL s) <= Str.count c s.
Proof.
  induction s as [|x s IH]; simpl; [done |].
  destruct (Ascii.eqb x "000"); simpl; lia.
Qed.

Lemma count_doubleQuotes c s :
  c <> Str.dquote -> Str.count c (Str.doubleQuotes s) = Str.count c s.
Proof.
  intros Hc.
  assert (Hq : Ascii.eqb Str.dquote c = false) by (apply Ascii.eqb_neq; congruence).
  induction s as [|x s IH]; cbn [Str.doubleQuotes Str.count]; [done |].
  destruct (Ascii.eqb x Str.dquote) eqn:Hx; cbn [Str.count]; rewrite IH; [| done].
  apply Ascii.eqb_eq in Hx. subst x. rewrite Hq. lia.
Qed.

Lemma count_QuoteIdentifier c name :
  c <> Str.dquote -> Str.count c name = 0 -> Str.count c (QuoteIdentifier name) = 0.
Proof.
  intros Hc Hname.
  assert (Hq : Ascii.eqb Str.dquote c = false) by (apply Ascii.eqb_neq; congruence).
  unfold QuoteIdentifier, Str.dq.
  rewrite !count_app, count_doubleQuotes by done.
  pose proof (count_untilNUL c name) as Hle.
  cbn [Str.count]. rewrite Hq. lia.
Qed.

Lemma count_fullQuoteIdentifier aliasName columnName :
  Str.count "?" aliasName = 0 -> Str.count "?" columnName = 0 ->
  Str.count "?" (fullQuoteIdentifier aliasName columnName) = 0.
Proof.
  intros Ha Hc. unfold fullQuoteIdentifier.
  rewrite !count_app, !count_QuoteIdentifier by done. done.
Qed.

Lemma count_Repeat c s n : Str.count c (Str.Repeat s n) = n * Str.count c s.
Proof. induction n as [|n IH]; simpl; [done | rewrite count_app, IH; lia]. Qed.

Lemma Placeholders_S n : Placeholders (S n) = String "?" (Str.Repeat ",?" n).
Proof. done. Qed.

Lemma count_Placeholders n : Str.count "?" (Placeholders n) = n.
Proof.
  destruct n as [|n]; [done |].
  rewrite Placeholders_S. cbn [Str.count]. rewrite count_Repeat. simpl. lia.
Qed.

(** [Placeholders n] is [n] question marks with commas between them. *)
Lemma Placeholders_Join n : Placeholders n = Str.Join (replicate n "?") ",".
Proof.
  destruct n as [|n]; [done |].
  rewrite Placeholders_S.
  induction n as [|n IH]; [done |].
  change (Str.Repeat ",?" (S n)) with (String "," (String "?" (Str.Repeat ",?" n))).
  rewrite IH. done.
Qed.

Lemma count_Join c parts sep :
  Str.count c sep = 0 ->
  Str.count c (Str.Join parts sep) = foldr (fun p n => Str.count c p + n) 0 parts.
Proof.
  intros Hsep. induction parts as [|p parts IH]; [done |].
  destruct parts as [|q parts]; [simpl; lia |].
  change (Str.Join (p :: q :: parts) sep) with (p +:+ sep +:+ Str.Join (q :: parts) sep).
  rewrite !count_app, IH, Hsep. simpl. lia.
Qed.

(** ** Join/alias manager *)

Lemma equal_eq a b : equal a b = true <-> a = b.
Proof.
  unfold equal. rewrite !andb_true_iff, !String.eqb_eq.
  destruct a, b; simpl. split; [intros [[-> ->] ->]; done | intros [= -> -> ->]; done].
Qed.

Lemma equal_refl a : equal a a = true.
Proof. by apply equal_eq. Qed.

Lemma findJoin_Some a tables i j :
  findJoin a tables i = Some j ->
  exists k, j = i + k /\ tables !! k = Some a
            /\ forall k', k' < k -> tables !! k' <> Some a.
Proof.
  revert i. induction tables as [|x tables IH]; intros i; simpl; [done |].
  destruct (equal x a) eqn:Hx.
  - intros [= <-]. apply equal_eq in Hx as ->.
    exists 0. split; [lia |]. split; [done |]. intros; lia.
  - intros H. apply IH in H as (k & -> & Hk & Hmin).
    exists (S k). split; [lia |]. split; [done |].
    intros [|k'] Hlt; simpl.
    + intros [= ->]. by rewrite equal_refl in Hx.
    + apply Hmin. lia.
Qed.

Lemma findJoin_app a tables more i :
  findJoin a (tables ++ more) i =
  match findJoin a tables i with
  | Some j => Some j
  | None => findJoin a more (i + length tables)
  end.
Proof.
  revert i. induction tables as [|x tables IH]; intros i; simpl.
  - by rewrite Nat.add_0_r.
  - destruct (equal x a); [done |]. rewrite IH.
    by replace (S i + length tables) with (i + S (length tables)) by lia.
Qed.

(** What a request does: the join list is extended at its end (by the
    requested join, if by anything), the request is then in the list, and
    the alias is made from the index of its first occurrence. *)
Lemma requestJoin_spec spec f :
  exists i more,
    joinedTables (snd (requestJoin spec f)) = joinedTables f ++ more
    /\ findJoin spec (joinedTables (snd (requestJoin spec f))) 0 = Some i
    /\ fst (requestJoin spec f) = aliasName (secondaryTable spec) i.
Proof.
  unfold requestJoin, createLeftJoin. destruct spec as [sec pc sc]; simpl.
  set (spec := {| secondaryTable := sec |}).
  destruct (findJoin spec (joinedTables f) 0) as [i|] eqn:Hfind; simpl.
  - exists i, []. by rewrite app_nil_r.
  - exists (length (joinedTables f)), [spec].
    rewrite findJoin_app, Hfind. simpl. rewrite equal_refl.
    split; [done |]. split; [done |].
    rewrite length_app. simpl. f_equal. lia.
Qed.

Lemma requestJoins_extends specs f :
  exists more, joinedTables (requestJoins specs f) = joinedTables f ++ more.
Proof.
  revert f. induction specs as [|spec specs IH]; intros f; simpl.
  - exists []. by rewrite app_nil_r.
  - destruct (requestJoin_spec spec f) as (i & more & Hext & _).
    destruct (IH (snd (requestJoin spec f))) as (more' & Hext').
    exists (more ++ more'). by rewrite Hext', Hext, app_assoc.
Qed.

Lemma aliasName_inj sec1 sec2 i j :
  ~ (sec1 = "_user" /\ sec2 = "_user") -> i <> j ->
  aliasName sec1 i <> aliasName sec2 j.
Proof.
  intros Huser Hij. unfold aliasName, Str.itoa.
  destruct (String.eqb_spec sec1 "_user"), (String.eqb_spec sec2 "_user");
    try done; try tauto.
  intros H. apply (inj (String.app "_t")) in H.
  by apply (inj (@pretty nat _)) in H.
Qed.

Lemma findJoin_lookup spec tables i :
  findJoin spec tables 0 = Some i ->
  tables !! i = Some spec /\ forall j, j < i -> tables !! j <> Some spec.
Proof. intros (k & -> & Hk & Hmin)%findJoin_Some. done. Qed.


(** The alias [_user] after two other joins, and the positional aliases of
    those. *)
Example createLeftJoin_alias_examples :
  let f0 := newPredicateSqlizerFactory
              {| database_ID := "_public"; database_UserRecordType := "user" |} "user" in
  let r1 := createLeftJoin "_follow" "_owner_id" "right_id" f0 in
  let r2 := createLeftJoin "_friend" "_owner_id" "left_id" (snd r1) in
  let r3 := createLeftJoin "_user" "_id" "id" (snd r2) in
  fst r1 = "_t0" /\ fst r2 = "_t1" /\ fst r3 = "_user"
  /\ length (joinedTables (snd r3)) = 3.
Proof. vm_compute. done. Qed.

(** C4, as the code has it. In one session, a join requested again (whatever
    was requested in between) gets the alias it got before, and the repeated
    request leaves the session as it was; two requests for joins that differ
    in a field get two distinct aliases, unless the secondary table of both
    is [_user]. *)
Theorem createLeftJoin_same_and_distinct
    (f : predicateSqlizerFactory) (a b : joinedTable) (between : list joinedTable) :
  let alias1 := fst (requestJoin a f) in
  let f2 := requestJoins between (snd (requestJoin a f)) in
  requestJoin a f2 = (alias1, f2)
  /\ (a <> b -> ~ (secondaryTable a = "_user" /\ secondaryTable b = "_user") ->
      fst (requestJoin b f2) <> alias1).
Proof.
  intros alias1 f2.
  destruct (requestJoin_spec a f) as (i & more & _ & Hfind & Halias).
  destruct (requestJoins_extends between (snd (requestJoin a f))) as (more' & Hext).
  fold f2 in Hext.
  assert (Hfind2 : findJoin a (joinedTables f2) 0 = Some i).
  { by rewrite Hext, findJoin_app, Hfind. }
  split.
  - unfold requestJoin at 1, createLeftJoin.
    destruct a as [sec pc sc]; simpl in *. rewrite Hfind2.
    subst alias1. by rewrite Halias.
  - intros Hab Huser.
    destruct (requestJoin_spec b f2) as (j & more'' & Hext'' & Hfindb & Haliasb).
    rewrite Haliasb. subst alias1. rewrite Halias.
    apply aliasName_inj; [tauto |].
    apply findJoin_lookup in Hfindb as [Hj _].
    apply findJoin_lookup in Hfind2 as [Hi _].
    intros ->. rewrite Hext'' in Hj.
    rewrite (lookup_app_l_Some _ _ _ _ Hi) in Hj. congruence.
Qed.

(** The outward and the inward join of a relation, the inward one requested
    twice: the outward join keeps its alias, the inward one has another. *)
Lemma createLeftJoin_same_and_distinct_witness :
  let f2 := requestJoins [followInward] (snd (requestJoin followOutward sampleSession)) in
  requestJoin followOutward f2 = ("_t0", f2)
  /\ fst (requestJoin followInward f2) <> "_t0".
Proof.
  destruct (createLeftJoin_same_and_distinct sampleSession followOutward followInward
              [followInward]) as [Hsame Hdistinct].
  split.
  - exact Hsame.
  - apply Hdistinct.
    + discriminate.
    + intros [H _]. discriminate H.
Defined.

(** C4 as stated fails: two joins to [_user] that differ in the primary
    column are two entries of the join list, and both get the alias
    [_user]. *)
Lemma createLeftJoin_user_joins_share_alias :
  let a := {| secondaryTable := "_user"; primaryColumn := "_id"; secondaryColumn := "id" |} in
  let b := {| secondaryTable := "_user"; primaryColumn := "_owner_id";
              secondaryColumn := "id" |} in
  let r1 := requestJoin a sampleSession in
  let r2 := requestJoin b (snd r1) in
  a <> b /\ fst r1 = "_user" /\ fst r2 = "_user" /\ joinedTables (snd r2) = [a; b].
Proof. vm_compute. split; [discriminate | done]. Qed.

(** ** Expression/literal compiler *)

(** C7. An array literal of length N > 0 compiles to N question marks,
    separated by commas and between parentheses, with N bind arguments: the
    elements in their order, a reference replaced by its key. The empty array
    compiles to the text [(NULL)] without bind arguments. *)
Theorem array_literal_operand (alias : string) (elems : list Value) :
  let sql := match elems with
             | [] => "(NULL)"
             | _ :: _ => "(" +:+ Str.Join (replicate (length elems) "?") "," +:+ ")"
             end in
  let args := map (fun v => match v with
                            | VReference r => VString (Key (Reference_ID r))
                            | _ => v
                            end) elems in
  expressionSqlizer_ToSql alias (literalExpression (VArray elems)) = Return (sql, args, None)
  /\ Str.count "?" sql = length elems
  /\ length args = length elems.
Proof.
  intros sql args. split; [| split].
  - unfold expressionSqlizer_ToSql, literalExpression, literalToSQLOperand. simpl.
    destruct elems as [|v elems]; [done |].
    rewrite Placeholders_Join. done.
  - subst sql. destruct elems as [|v elems]; [done |].
    rewrite <- Placeholders_Join, !count_app, count_Placeholders. simpl. lia.
  - subst args. by rewrite length_map.
Qed.

Example array_literal_of_three :
  expressionSqlizer_ToSql "note"
    (literalExpression
       (VArray [VInt 7; VReference {| Reference_ID := {| RecordID_Type := "note";
                                                          Key := "k1" |} |};
                VString "x"]))
  = Return ("(?,?,?)", [VInt 7; VString "k1"; VString "x"], None).
Proof. reflexivity. Qed.

(** ** Predicate compiler: Not *)

(** [NotSqlizer.ToSql] returns what its child returns when the child has no
    error: the fragment is not wrapped. *)
Lemma NotSqlizer_ToSql_no_error child sql args :
  ToSql child = Return (sql, args, None) ->
  ToSql (NotSqlizer child) = Return (sql, args, None).
Proof. intros H. simpl. by rewrite H. Qed.

(** [NotSqlizer.ToSql] wraps the fragment of a child that returns an
    error. *)
Lemma NotSqlizer_ToSql_error child sql args err :
  ToSql child = Return (sql, args, Some err) ->
  ToSql (NotSqlizer child) = Return ("NOT (" +:+ sql +:+ ")", args, Some err).
Proof. intros H. simpl. by rewrite H. Qed.

(** C1, on the code: the Not of a comparison compiles to the fragment of
    the comparison (the quoted column [a] of [note], [=?]), with the same
    argument and no error: the fragment is not wrapped in [NOT (...)]. *)
Theorem Not_of_comparison_is_not_wrapped :
  let child := fullQuoteIdentifier "note" "a" +:+ "=?" in
  compile (equalsOne "a") sampleSession
  = Return ((child, [VInt 1], None), sampleSession)
  /\ compile (MkPredicate Not [ChildPredicate (equalsOne "a")]) sampleSession
     = Return ((child, [VInt 1], None), sampleSession)
  /\ compile (MkPredicate Not [ChildPredicate (equalsOne "a")]) sampleSession
     <> Return (("NOT (" +:+ child +:+ ")", [VInt 1], None), sampleSession).
Proof.
  split; [reflexivity |]. split; [reflexivity |].
  vm_compute. discriminate.
Qed.

(** The wrapping is what a Not gets when its child fails: here the child has
    an operator that is no comparison. *)
Example Not_of_failing_comparison :
  compile (MkPredicate Not [ChildPredicate (MkPredicate (OtherOperator 99)
             [ChildExpression (keyPathExpression "a")])]) sampleSession
  = Return (("NOT ()", [], Some (ComparisonOperatorNotSupported (OtherOperator 99))),
            sampleSession).
Proof. reflexivity. Qed.

(** ** Access-control predicate builder *)

Lemma string_app_cons x (s t : string) : String x s +:+ t = String x (s +:+ t).
Proof. reflexivity. Qed.

Lemma string_app_assoc (s t u : string) : (s +:+ t) +:+ u = s +:+ (t +:+ u).
Proof.
  induction s as [|x s IH]; [done |].
  by rewrite !string_app_cons, IH.
Qed.

Lemma string_app_nil_r (s : string) : s +:+ "" = s.
Proof.
  induction s as [|x s IH]; [done |].
  by rewrite string_app_cons, IH.
Qed.

Lemma writeRoles_returns roles b :
  writeRoles roles b = Return (b +:+ roleClauses roles).
Proof.
  revert b. induction roles as [|role roles IH]; intros b; simpl.
  - by rewrite string_app_nil_r.
  - rewrite IH. f_equal. unfold roleClause. simpl.
    by rewrite !string_app_assoc.
Qed.

Lemma accessPredicateSqlizer_ToSql_eq databaseID user level :
  accessPredicateSqlizer_ToSql databaseID user level =
  if String.eqb (UserInfo_ID user) "" then Return ("", [], None)
  else Return (accessFragment user, [VString (UserInfo_ID user)], None).
Proof.
  unfold accessPredicateSqlizer_ToSql.
  destruct (String.eqb (UserInfo_ID user) ""); simpl.
  - by destruct (String.eqb databaseID "").
  - rewrite writeRoles_returns. unfold accessFragment. simpl.
    by rewrite !string_app_assoc.
Qed.

(** C10. The access-control builder makes its sqlizer without an error, and
    the sqlizer returns its fragment with a [nil] error and without a panic,
    for every session, user and level. *)
Theorem access_control_has_no_error
    (f : predicateSqlizerFactory) (user : UserInfo) (level : ACLLevel) :
  exists sqlizer sql args,
    newAccessControlSqlizer user level f = Return (Ok sqlizer, f)
    /\ ToSql sqlizer = Return (sql, args, None).
Proof.
  exists (accessPredicateSqlizer (database_ID (db f)) user level).
  cbn [ToSql]. rewrite accessPredicateSqlizer_ToSql_eq.
  destruct (String.eqb (UserInfo_ID user) ""); eexists _, _; split; reflexivity.
Qed.

(** C6, on the code: with the empty database id and a user with an id, the
    fragment is the whole disjunction, with the user id as its bind
    argument; it is not the empty fragment. *)
Theorem access_fragment_with_empty_database_id :
  accessPredicateSqlizer_ToSql "" alice "read"
  = Return ("(_access @> '[{" +:+ Str.dq +:+ "role" +:+ Str.dq +:+ ":"
              +:+ Str.dq +:+ "admin" +:+ Str.dq +:+ "}]' OR _access @> '[{"
              +:+ Str.dq +:+ "user_id" +:+ Str.dq +:+ ":"
              +:+ Str.dq +:+ "alice" +:+ Str.dq
              +:+ "}]' OR _access IS NULL OR _owner_id = ?)",
            [VString "alice"], None)
  /\ accessPredicateSqlizer_ToSql "" alice "read" <> Return ("", [], None).
Proof.
  split; [reflexivity |].
  rewrite accessPredicateSqlizer_ToSql_eq. discriminate.
Qed.

(** The empty fragment is what a user without an id gets, whatever the
    database id. *)
Lemma access_fragment_without_user_id databaseID roles level :
  accessPredicateSqlizer_ToSql databaseID
    {| UserInfo_ID := ""; UserInfo_Roles := roles |} level
  = Return ("", [], None).
Proof. by rewrite accessPredicateSqlizer_ToSql_eq. Qed.

(** ** Caller-supplied strings in the fragments *)

Lemma literalToSQLOperand_shape v1 v2 :
  literalShape v1 = literalShape v2 ->
  fst (literalToSQLOperand v1) = fst (literalToSQLOperand v2).
Proof.
  destruct v1 as [| | | | | |elems1|], v2 as [| | | | | |elems2|];
    cbn [literalShape]; try done.
  intros [= Hlen]. unfold literalToSQLOperand. rewrite Hlen.
  by destruct (0 <? length elems2)%nat.
Qed.




(** ** Functional predicate translators *)

(** C8. In a session whose primary table is not the user record table, a
    UserDiscoverFunc predicate gets the error of
    [newUserDiscoverFunctionalPredicateSqlizer] (InvalidContext in the
    specification), and the session after the call is the session before it:
    no join and no extra column is added. *)
Theorem user_discover_on_other_table
    (f : predicateSqlizerFactory) (args : list (string * list string)) :
  database_UserRecordType (db f) <> primaryTable f ->
  newPredicateSqlizer (userDiscoverPredicate args) f
  = Return (Err UserDiscoverOnNonUserRecord, f)
  /\ compile (userDiscoverPredicate args) f
     = Return (("", [], Some UserDiscoverOnNonUserRecord), f).
Proof.
  intros Hne%String.eqb_neq.
  assert (H : newPredicateSqlizer (userDiscoverPredicate args) f
              = Return (Err UserDiscoverOnNonUserRecord, f)).
  { cbn. unfold newUserDiscoverFunctionalPredicateSqlizer. by rewrite Hne. }
  split; [exact H |]. unfold compile. by rewrite H.
Qed.

(** A discovery by email in a session on the table [note]. *)
Lemma user_discover_on_other_table_witness :
  newPredicateSqlizer (userDiscoverPredicate [("email", ["john@example.com"])])
    sampleSession
  = Return (Err UserDiscoverOnNonUserRecord, sampleSession)
  /\ compile (userDiscoverPredicate [("email", ["john@example.com"])]) sampleSession
     = Return (("", [], Some UserDiscoverOnNonUserRecord), sampleSession).
Proof.
  apply (user_discover_on_other_table sampleSession [("email", ["john@example.com"])]).
  discriminate.
Defined.

(** On the user record table the same predicate requests the join to
    [_user] and registers the two transient columns. *)
Example user_discover_on_user_table :
  match newPredicateSqlizer (userDiscoverPredicate [("email", ["john@example.com"])])
          (newPredicateSqlizerFactory
             {| database_ID := "_public"; database_UserRecordType := "user" |} "user") with
  | Return (Ok _, f) =>
      length (joinedTables f) = 1
      /\ (dom <$> extraColumns f)
         = Some ({["_transient__email"; "_transient__username"]} : gset string)
  | _ => False
  end.
Proof. vm_compute. done. Qed.

(** ** Predicate compiler: placeholders and bind arguments *)

(** Induction over a predicate tree: the children that are predicates have
    the property. *)
Lemma Predicate_children_ind (P : Predicate -> Prop) :
  (forall op children, Forall (childHolds P) children -> P (MkPredicate op children)) ->
  forall p, P p.
Proof.
  intros step. fix IH 1. intros [op children]. apply step.
  induction children as [|c children IHchildren]; constructor.
  - destruct c as [q | e]; [apply IH | exact I].
  - exact IHchildren.
Qed.

Lemma expression_placeholders alias e :
  noQuestionMark alias -> supportedExpression e = true ->
  Forall noQuestionMark (expressionNames e) ->
  placeholdersMatch (expressionSqlizer_ToSql alias e).
Proof.
  intros Halias Hsup Hnames. unfold placeholdersMatch.
  destruct e as [ty v]. unfold supportedExpression, expressionNames in *.
  unfold expressionSqlizer_ToSql. simpl in *. destruct ty.
  - (* Literal *)
    destruct (literalToSQLOperand v) as [sql args] eqn:Hlit.
    exists sql, args. split; [done |].
    unfold literalToSQLOperand in Hlit.
    destruct v as [| | | | | |elems|];
      try (injection Hlit as <- <-; reflexivity).
    destruct (0 <? length elems)%nat eqn:Hlen; injection Hlit as <- <-.
    + rewrite !count_app, count_Placeholders, length_map. simpl. lia.
    + apply Nat.ltb_ge in Hlen. simpl. lia.
  - (* KeyPath *)
    destruct v; try done. apply Forall_inv in Hnames.
    eexists _, _. split; [reflexivity |].
    by apply count_fullQuoteIdentifier.
  - (* Function *)
    destruct v as [| | | | | | |fn]; try done. destruct fn; try done; simpl.
    + apply Forall_inv in Hnames. eexists _, _. split; [reflexivity |].
      rewrite !count_app, count_fullQuoteIdentifier by done. reflexivity.
    + eexists _, _. split; [reflexivity |]. by destruct OverallRecords.
    + apply Forall_inv in Hnames. eexists _, _. split; [reflexivity |].
      rewrite count_app, Hnames. reflexivity.
Qed.

Lemma comparisonOperatorSQL_comparison op :
  isComparison op = true ->
  exists opSQL, comparisonOperatorSQL op = Some opSQL /\ noQuestionMark opSQL.
Proof. destruct op; try done; intros _; eexists; split; reflexivity. Qed.

Lemma isComparison_IsBinary op : isComparison op = true -> IsBinary op = true.
Proof. by destruct op. Qed.

Lemma comparison_placeholders alias op lhs rhs :
  isComparison op = true ->
  placeholdersMatch (expressionSqlizer_ToSql alias lhs) ->
  placeholdersMatch (expressionSqlizer_ToSql alias rhs) ->
  placeholdersMatch
    (comparisonPredicateSqlizer_ToSql alias
       (MkPredicate op [ChildExpression lhs; ChildExpression rhs])).
Proof.
  intros Hop (sqlL & argsL & HL & HcountL) (sqlR & argsR & HR & HcountR).
  destruct (comparisonOperatorSQL_comparison op Hop) as (opSQL & HopSQL & Hq).
  unfold comparisonPredicateSqlizer_ToSql. simpl.
  rewrite (isComparison_IsBinary op Hop), HL, HopSQL, HR.
  eexists _, _. split; [reflexivity |].
  rewrite !count_app, length_app, HcountL, HcountR, Hq. lia.
Qed.

Lemma contains_placeholders alias lhs rhs :
  match Expression_Type lhs, Expression_Type rhs with
  | Literal, KeyPath | KeyPath, Literal => True
  | _, _ => False
  end ->
  placeholdersMatch (expressionSqlizer_ToSql alias lhs) ->
  placeholdersMatch (expressionSqlizer_ToSql alias rhs) ->
  placeholdersMatch
    (containsComparisonPredicateSqlizer_ToSql alias
       (MkPredicate In [ChildExpression lhs; ChildExpression rhs])).
Proof.
  intros Hpair (sqlL & argsL & HL & HcountL) (sqlR & argsR & HR & HcountR).
  unfold containsComparisonPredicateSqlizer_ToSql. simpl.
  destruct (Expression_Type lhs), (Expression_Type rhs); try done;
    rewrite HL, HR; eexists _, _; (split; [reflexivity |]);
    rewrite !count_app, length_app, HcountL, HcountR; simpl; lia.
Qed.

Lemma questionMarks_app l1 l2 :
  questionMarks (l1 ++ l2) = questionMarks l1 + questionMarks l2.
Proof. induction l1 as [|p l1 IH]; simpl; [done | rewrite IH; lia]. Qed.

Lemma conj_parts_placeholders parts sqlParts args :
  Forall (fun s => placeholdersMatch (ToSql s)) parts ->
  questionMarks sqlParts = length args ->
  exists sqlParts' args',
    conj_parts ToSql parts sqlParts args = Return (Ok (sqlParts', args'))
    /\ questionMarks sqlParts' = length args'.
Proof.
  intros Hparts. revert sqlParts args.
  induction Hparts as [|s parts (sql & partArgs & Hs & Hcount) _ IH];
    intros sqlParts args Hacc; simpl.
  - by exists sqlParts, args.
  - rewrite Hs. destruct (String.eqb sql ""); [by apply IH |].
    apply IH. rewrite questionMarks_app, length_app. simpl. lia.
Qed.

Lemma conj_join_placeholders parts sep :
  noQuestionMark sep ->
  Forall (fun s => placeholdersMatch (ToSql s)) parts ->
  placeholdersMatch (conj_join ToSql parts sep).
Proof.
  intros Hsep Hparts.
  destruct (conj_parts_placeholders parts [] [] Hparts eq_refl)
    as (sqlParts & args & Hjoin & Hcount).
  unfold conj_join. rewrite Hjoin.
  eexists _, _. split; [reflexivity |].
  destruct (0 <? length sqlParts)%nat eqn:Hlen.
  - rewrite !count_app, count_Join by done. fold (questionMarks sqlParts).
    simpl. lia.
  - apply Nat.ltb_ge in Hlen. destruct sqlParts; simpl in *; [done | lia].
Qed.

Lemma supported_not_empty p : supported p = true -> IsEmpty p = false.
Proof.
  destruct p as [op children]. simpl.
  destruct op; try done; by destruct children.
Qed.

(** The sqlizer of a supported predicate: made without an error, with the
    session as it was, and with a fragment whose question marks match its
    arguments. *)
Lemma newPredicateSqlizer_supported p :
  forall f,
    noQuestionMark (primaryTable f) ->
    supported p = true ->
    Forall noQuestionMark (predicateNames p) ->
    exists sqlizer,
      newPredicateSqlizer p f = Return (Ok sqlizer, f)
      /\ placeholdersMatch (ToSql sqlizer).
Proof.
  induction p as [op children IH] using Predicate_children_ind.
  intros f Hprimary Hsup Hnames.
  assert (Hchildren :
            (op = And \/ op = Or) ->
            exists sqlizers,
              childSqlizers newPredicateSqlizer children f = Return (Ok sqlizers, f)
              /\ Forall (fun s => placeholdersMatch (ToSql s)) sqlizers).
  { intros Hop.
    assert (Hall : forallb (fun c => match c with
                                     | ChildPredicate q => supported q
                                     | ChildExpression _ => false
                                     end) children = true).
    { destruct Hop as [-> | ->]; simpl in Hsup; by destruct children. }
    clear Hsup Hop. simpl in Hnames.
    induction IH as [|c children Hc _ IHchildren]; simpl.
    - by exists [].
    - simpl in Hall, Hnames. apply andb_true_iff in Hall as [Hq Hall].
      apply Forall_app in Hnames as [Hnames_c Hnames].
      destruct c as [q | e]; [| done]. simpl in Hc.
      destruct (Hc f Hprimary Hq Hnames_c) as (s & -> & Hs).
      destruct (IHchildren Hnames Hall) as (ss & -> & Hss).
      exists (s :: ss). split; [done |]. by constructor. }
  pose proof (supported_not_empty _ Hsup) as Hempty.
  cbn [newPredicateSqlizer]. rewrite Hempty.
  destruct op; try done; simpl.
  1: { (* And *)
    destruct Hchildren as (ss & -> & Hss); [by left |].
    exists (SqAnd ss). split; [done |]. by apply conj_join_placeholders. }
  1: { (* Or *)
    destruct Hchildren as (ss & -> & Hss); [by right |].
    exists (SqOr ss). split; [done |]. by apply conj_join_placeholders. }
  1: { (* Not *)
    simpl in Hsup, Hnames.
    destruct children as [|[q | e] [|c children]]; try done.
    apply Forall_inv in IH. simpl in IH, Hnames. rewrite app_nil_r in Hnames.
    destruct (IH f Hprimary Hsup Hnames) as (s & -> & sql & args & Hs & Hcount).
    exists (NotSqlizer s). split; [done |].
    exists sql, args. split; [| done]. simpl. by rewrite Hs. }
  all: simpl in Hsup, Hnames;
    destruct children as [|[q | lhs] [|[q' | rhs] [|c children]]]; try done;
    simpl in Hnames; rewrite app_nil_r in Hnames;
    apply Forall_app in Hnames as [HnamesL HnamesR];
    (eexists; split; [reflexivity |]); cbn [ToSql].
  9: { (* In *)
    unfold supportedInPair in Hsup.
    apply contains_placeholders.
    - by destruct (Expression_Type lhs), (Expression_Type rhs).
    - apply expression_placeholders; [done | | done].
      destruct lhs as [[] v]; simpl in *; try done. by destruct rhs as [[] w].
    - apply expression_placeholders; [done | | done].
      destruct rhs as [[] w]; simpl in *; try done;
        by destruct lhs as [[] v]. }
  all: apply andb_true_iff in Hsup as [HsupL HsupR];
    apply comparison_placeholders; [done | |]; by apply expression_placeholders.
Qed.

(** C2, as the code has it. A predicate tree built from the supported
    operators compiles, in any session, to a fragment with as many question
    marks as bind arguments, without an error and with the session as it was,
    provided no name that goes into the text (the primary table, the key
    paths, the fields of distances and the names of user data) has a
    question mark in it. *)
Theorem supported_predicate_compiles (f : predicateSqlizerFactory) (p : Predicate) :
  supported p = true ->
  noQuestionMark (primaryTable f) ->
  Forall noQuestionMark (predicateNames p) ->
  exists sql args,
    compile p f = Return ((sql, args, None), f)
    /\ Str.count "?" sql = length args.
Proof.
  intros Hsup Hprimary Hnames.
  destruct (newPredicateSqlizer_supported p f Hprimary Hsup Hnames)
    as (sqlizer & Hnew & sql & args & Hsql & Hcount).
  exists sql, args. split; [| exact Hcount].
  unfold compile. by rewrite Hnew, Hsql.
Qed.

(** A tree with an And, a Not, an Or, two comparisons and the two pairings
    of In. *)
Lemma supported_predicate_compiles_witness :
  exists sql args,
    compile samplePredicate sampleSession = Return ((sql, args, None), sampleSession)
    /\ Str.count "?" sql = length args.
Proof.
  apply (supported_predicate_compiles sampleSession samplePredicate).
  - reflexivity.
  - reflexivity.
  - repeat constructor.
Defined.

(** C2 as stated fails: a comparison of the key path [a?] with a literal is
    a supported predicate, and its fragment has two question marks and one
    bind argument. *)
Lemma key_path_with_question_mark :
  supported (equalsOne "a?") = true
  /\ compile (equalsOne "a?") sampleSession
     = Return ((fullQuoteIdentifier "note" "a?" +:+ "=?", [VInt 1], None), sampleSession)
  /\ Str.count "?" (fullQuoteIdentifier "note" "a?" +:+ "=?") = 2
  /\ length [VInt 1] = 1.
Proof. repeat split. Qed.

(** ** Sort compiler *)

Lemma count_uint c d :
  c = "?"%char \/ c = "%"%char -> Str.count c (NilEmpty.string_of_uint d) = 0.
Proof. intros [-> | ->]; induction d; simpl; auto. Qed.

Lemma count_decimal c n :
  c = "?"%char \/ c = "%"%char -> Str.count c (Fmt.decimal n) = 0.
Proof.
  intros Hc. unfold Fmt.decimal, NilZero.string_of_uint.
  destruct (N.to_uint n) eqn:Hn; try (rewrite <- Hn at 1); try by apply count_uint.
  by destruct Hc as [-> | ->].
Qed.

Lemma count_fixed6 c m e :
  c = "?"%char \/ c = "%"%char -> Str.count c (Fmt.fixed6 m e) = 0.
Proof.
  intros Hc. unfold Fmt.fixed6, Fmt.pad6.
  rewrite !count_app, count_Repeat, !count_decimal by done.
  destruct Hc as [-> | ->]; simpl; lia.
Qed.

Lemma count_verb_f c x :
  c = "?"%char \/ c = "%"%char -> Str.count c (Fmt.verb_f x) = 0.
Proof.
  intros Hc. unfold Fmt.verb_f.
  destruct (Prim2SF x) as [s | s | | s m e].
  - by destruct Hc as [-> | ->], s.
  - by destruct Hc as [-> | ->], s.
  - by destruct Hc as [-> | ->].
  - rewrite count_app, count_fixed6 by done. by destruct Hc as [-> | ->], s.
Qed.

Section SortProperties.

Variable fmt_f : float64 -> string.
Variable Sprintf0 : string -> string.

(** What the sort compiler needs of [fmt]: a format without a percent sign
    is printed as it is, and the text of a [float64] has neither a question
    mark nor a percent sign. *)
Hypothesis Sprintf0_verbatim : forall format, noPercent format -> Sprintf0 format = format.
Hypothesis fmt_f_plain : forall x, noQuestionMark (fmt_f x) /\ noPercent (fmt_f x).


End SortProperties.



(** * Further properties of [builder.go] *)

(** ** The session during compilation *)

Lemma findJoin_None spec tables i :
  findJoin spec tables i = None -> spec ∉ tables.
Proof.
  revert i. induction tables as [|x tables IH]; intros i; simpl.
  - intros _. apply not_elem_of_nil.
  - destruct (equal x spec) eqn:Hx; [done |].
    intros H%IH. apply not_elem_of_cons. split; [| done].
    intros ->. by rewrite equal_refl in Hx.
Qed.

Lemma findJoin_elem spec tables i j :
  findJoin spec tables i = Some j -> spec ∈ tables.
Proof.
  intros (k & _ & Hk & _)%findJoin_Some. by eapply list_elem_of_lookup_2.
Qed.

Lemma requestJoin_changes spec f :
  let f' := snd (requestJoin spec f) in
  db f' = db f /\ primaryTable f' = primaryTable f /\ extraColumns f' = extraColumns f
  /\ joinedTables f' = if bool_decide (spec ∈ joinedTables f) then joinedTables f
                       else joinedTables f ++ [spec].
Proof.
  destruct spec as [secondary primaryCol secondaryCol].
  set (spec := {| secondaryTable := secondary |}).
  unfold requestJoin, createLeftJoin. simpl. fold spec.
  destruct (findJoin spec (joinedTables f) 0) as [i|] eqn:Hfind; simpl.
  - apply findJoin_elem in Hfind. by rewrite bool_decide_eq_true_2.
  - apply findJoin_None in Hfind. by rewrite bool_decide_eq_false_2.
Qed.

(** X1. [createLeftJoin] changes the join list only, and only by appending
    the requested join when the list does not have it: a join that is in the
    list leaves the session as it was. *)
Theorem createLeftJoin_effect
    (f : predicateSqlizerFactory) (secondary primaryCol secondaryCol : string) :
  let spec := {| secondaryTable := secondary; primaryColumn := primaryCol;
                 secondaryColumn := secondaryCol |} in
  let f' := snd (createLeftJoin secondary primaryCol secondaryCol f) in
  db f' = db f /\ primaryTable f' = primaryTable f /\ extraColumns f' = extraColumns f
  /\ joinedTables f' = (if bool_decide (spec ∈ joinedTables f) then joinedTables f
                        else joinedTables f ++ [spec])
  /\ (spec ∈ joinedTables f -> f' = f).
Proof.
  intros spec f'.
  destruct (requestJoin_changes spec f) as (Hdb & Hprimary & Hextra & Hjoins).
  repeat split; try done.
  intros Hin. subst f'. change (createLeftJoin secondary primaryCol secondaryCol f)
    with (requestJoin spec f) in *.
  rewrite bool_decide_eq_true_2 in Hjoins by done.
  destruct (requestJoin spec f) as [alias [d t j e]], f; simpl in *. congruence.
Qed.

Lemma sessionGrows_refl f : sessionGrows f f.
Proof.
  repeat split; try done. exists []. by rewrite app_nil_r.
Qed.

Lemma sessionGrows_trans f1 f2 f3 :
  sessionGrows f1 f2 -> sessionGrows f2 f3 -> sessionGrows f1 f3.
Proof.
  intros (Hdb & Hprimary & (more & Hjoins) & Hnodup & Hextra)
         (Hdb' & Hprimary' & (more' & Hjoins') & Hnodup' & Hextra').
  repeat split; try congruence; auto.
  exists (more ++ more'). by rewrite Hjoins', Hjoins, app_assoc.
Qed.

Lemma createLeftJoin_grows secondary primaryCol secondaryCol f :
  sessionGrows f (snd (createLeftJoin secondary primaryCol secondaryCol f)).
Proof.
  pose proof (requestJoin_changes {| secondaryTable := secondary; primaryColumn := primaryCol;
                                    secondaryColumn := secondaryCol |} f) as H.
  unfold requestJoin in H. cbn [secondaryTable primaryColumn secondaryColumn] in H.
  destruct H as (Hdb & Hprimary & Hextra & Hjoins).
  repeat split; try done.
  - rewrite Hjoins. case_bool_decide; [exists [] | eexists]; [by rewrite app_nil_r | done].
  - intros Hnodup. rewrite Hjoins. case_bool_decide as Hin; [done |].
    apply NoDup_app. split; [done |]. split; [| apply NoDup_singleton].
    intros x Hx ->%list_elem_of_singleton. done.
  - unfold extraColumn. by rewrite Hextra.
Qed.

Lemma addExtraColumn_grows key fieldType expr f :
  sessionGrows f (addExtraColumn key fieldType expr f).
Proof.
  repeat split; try done.
  - exists []. by rewrite app_nil_r.
  - intros k. unfold extraColumn, addExtraColumn. simpl.
    destruct (extraColumns f) as [m|]; [| by intros [? [=]]].
    intros Hk. destruct (decide (key = k)) as [-> | Hne].
    + rewrite lookup_insert_eq. by eexists.
    + by rewrite lookup_insert_ne.
Qed.

Lemma newFunctionalPredicateSqlizer_grows predicate f r f' :
  newFunctionalPredicateSqlizer predicate f = Return (r, f') -> sessionGrows f f'.
Proof.
  unfold newFunctionalPredicateSqlizer.
  destruct (childExpression (Predicate_Children predicate) 0) as [expr | msg]; [| done].
  destruct (Expression_Type expr); try done.
  destruct (Expression_Value expr) as [| | | | | | |fn]; try done.
  destruct fn as [| | |keyPath relationName relationDirection user|args]; try done.
  - unfold newUserRelationFunctionalPredicateSqlizer.
    set (table := relationName).
    set (direction := if String.eqb relationDirection "" then "outward"
                      else relationDirection).
    set (column := if String.eqb keyPath "_owner" || String.eqb keyPath ""
                   then "_owner_id" else keyPath).
    pose proof (createLeftJoin_grows table column "right_id" f) as Hout.
    destruct (String.eqb direction "outward" || String.eqb direction "mutual").
    + destruct (createLeftJoin table column "right_id" f) as [outwardAlias f1].
      simpl in Hout.
      pose proof (createLeftJoin_grows table column "left_id" f1) as Hin.
      destruct (String.eqb direction "inward" || String.eqb direction "mutual").
      * destruct (createLeftJoin table column "left_id" f1) as [inwardAlias f2].
        intros [= _ <-]. by eapply sessionGrows_trans.
      * by intros [= _ <-].
    + pose proof (createLeftJoin_grows table column "left_id" f) as Hin.
      destruct (String.eqb direction "inward" || String.eqb direction "mutual").
      * destruct (createLeftJoin table column "left_id" f) as [inwardAlias f2].
        by intros [= _ <-].
      * intros [= _ <-]. apply sessionGrows_refl.
  - unfold newUserDiscoverFunctionalPredicateSqlizer.
    destruct (negb _).
    + intros [= _ <-]. apply sessionGrows_refl.
    + pose proof (createLeftJoin_grows "_user" "_id" "id" f) as Hjoin.
      destruct (createLeftJoin "_user" "_id" "id" f) as [alias f1]. simpl in Hjoin.
      intros [= _ <-].
      eapply sessionGrows_trans; [exact Hjoin |].
      eapply sessionGrows_trans; apply addExtraColumn_grows.
Qed.

Lemma childSqlizers_grows children :
  Forall (childHolds (fun q => forall f r f',
            newPredicateSqlizer q f = Return (r, f') -> sessionGrows f f')) children ->
  forall f r f',
    childSqlizers newPredicateSqlizer children f = Return (r, f') -> sessionGrows f f'.
Proof.
  induction 1 as [|c children Hc _ IH]; intros f r f'; simpl.
  - intros [= _ <-]. apply sessionGrows_refl.
  - destruct c as [q | e]; [| done]. simpl in Hc.
    destruct (newPredicateSqlizer q f) as [[[s | err] f1] | msg] eqn:Hq; [| | done].
    + apply Hc in Hq.
      destruct (childSqlizers newPredicateSqlizer children f1)
        as [[[ss | err] f2] | msg] eqn:Hrest; [| | done];
        apply IH in Hrest; intros [= _ <-]; by eapply sessionGrows_trans.
    + apply Hc in Hq. by intros [= _ <-].
Qed.

Lemma newPredicateSqlizer_grows p :
  forall f r f', newPredicateSqlizer p f = Return (r, f') -> sessionGrows f f'.
Proof.
  induction p as [op children IH] using Predicate_children_ind.
  intros f r f'. cbn [newPredicateSqlizer].
  destruct (IsEmpty (MkPredicate op children)); [done |].
  case_bool_decide as Hfun; [apply newFunctionalPredicateSqlizer_grows |].
  pose proof (childSqlizers_grows children IH f) as Hchildren.
  destruct op; simpl; try done;
    try (intros [= _ <-]; apply sessionGrows_refl).
  - destruct (childSqlizers newPredicateSqlizer children f)
      as [[[ss | err] f1] | msg]; [| | done];
      intros [= _ <-]; by eapply Hchildren.
  - destruct (childSqlizers newPredicateSqlizer children f)
      as [[[ss | err] f1] | msg]; [| | done];
      intros [= _ <-]; by eapply Hchildren.
  - destruct children as [|[q | e] children]; try done.
    apply Forall_inv in IH. simpl in IH.
    destruct (newPredicateSqlizer q f) as [[[s | err] f1] | msg] eqn:Hq; [| | done];
      apply IH in Hq; by intros [= _ <-].
Qed.


(** X3. Compilation keeps the join list free of duplicates: no join is in the
    list twice after it if none was before it. *)
Theorem compilation_keeps_joins_distinct
    (p : Predicate) (f f' : predicateSqlizerFactory) (r : result Sqlizer) :
  NoDup (joinedTables f) ->
  newPredicateSqlizer p f = Return (r, f') ->
  NoDup (joinedTables f').
Proof.
  intros Hnodup (_ & _ & _ & Hkeeps & _)%newPredicateSqlizer_grows. auto.
Qed.

(** ** Rendering the joins *)

Lemma requestJoin_primaryTable spec f :
  primaryTable (snd (requestJoin spec f)) = primaryTable f.
Proof.
  by destruct (requestJoin_changes spec f) as (_ & H & _).
Qed.

Lemma requestJoins_primaryTable specs f :
  primaryTable (requestJoins specs f) = primaryTable f.
Proof.
  revert f. induction specs as [|spec specs IH]; intros f; simpl; [done |].
  by rewrite IH, requestJoin_primaryTable.
Qed.

Section JoinProperties.

Variable tableName : string -> string.

Lemma addJoinClauses_imap primary tables i q :
  addJoinClauses tableName primary tables i q =
  q ++ (LeftJoin <$> imap (fun k spec =>
          joinClause tableName primary spec (aliasName (secondaryTable spec) (i + k)))
          tables).
Proof.
  revert i q. induction tables as [|spec tables IH]; intros i q; simpl.
  - by rewrite app_nil_r.
  - rewrite IH, <- app_assoc. simpl. rewrite Nat.add_0_r. do 3 f_equal.
    apply imap_ext. intros k x _. simpl. do 2 f_equal. lia.
Qed.

Lemma addJoinsToSelectBuilder_imap q f :
  addJoinsToSelectBuilder tableName q f
  = q ++ (LeftJoin <$> imap (fun k spec =>
             joinClause tableName (primaryTable f) spec
               (aliasName (secondaryTable spec) k)) (joinedTables f))
      ++ (match joinedTables f with [] => [] | _ :: _ => [Distinct] end).
Proof.
  unfold addJoinsToSelectBuilder. rewrite addJoinClauses_imap.
  change (fun k spec => joinClause tableName (primaryTable f) spec
                          (aliasName (secondaryTable spec) (0 + k)))
    with (fun k spec => joinClause tableName (primaryTable f) spec
                          (aliasName (secondaryTable spec) k)).
  destruct (joinedTables f) as [|spec tables].
  - simpl. by rewrite !app_nil_r.
  - cbn [length Nat.ltb Nat.leb]. by rewrite <- app_assoc.
Qed.

(** X4. [addJoinsToSelectBuilder] calls [LeftJoin] once for each entry of the
    join list, in the order of the list, with the clause of the entry under
    the alias of its index, and then [Distinct] when the list has an entry;
    with an empty join list it makes no call. *)
Theorem addJoinsToSelectBuilder_calls (q : SelectBuilder) (f : predicateSqlizerFactory) :
  exists clauses,
    addJoinsToSelectBuilder tableName q f
    = q ++ (LeftJoin <$> clauses)
        ++ (match joinedTables f with [] => [] | _ :: _ => [Distinct] end)
    /\ length clauses = length (joinedTables f)
    /\ forall i spec,
         joinedTables f !! i = Some spec ->
         clauses !! i
         = Some (joinClause tableName (primaryTable f) spec
                   (aliasName (secondaryTable spec) i)).
Proof.
  exists (imap (fun k spec =>
            joinClause tableName (primaryTable f) spec (aliasName (secondaryTable spec) k))
            (joinedTables f)).
  split; [| split].
  - apply addJoinsToSelectBuilder_imap.
  - by rewrite length_imap.
  - intros i spec Hi. rewrite list_lookup_imap, Hi. done.
Qed.

(** X5. The alias a request returns is the alias of the join in the clauses at
    the end of the session: after a request for [spec] that returned the
    alias [a], and whatever requests after it, [addJoinsToSelectBuilder]
    calls [LeftJoin] with the clause of [spec] under the name [a]. *)
Theorem requested_alias_is_rendered
    (q : SelectBuilder) (f : predicateSqlizerFactory) (spec : joinedTable)
    (later : list joinedTable) :
  LeftJoin (joinClause tableName (primaryTable f) spec (fst (requestJoin spec f)))
  ∈ addJoinsToSelectBuilder tableName q (requestJoins later (snd (requestJoin spec f))).
Proof.
  destruct (requestJoin_spec spec f) as (i & more & _ & Hfind & ->).
  set (f1 := snd (requestJoin spec f)) in *.
  destruct (requestJoins_extends later f1) as (more' & Hext).
  set (f2 := requestJoins later f1) in *.
  assert (Hprimary : primaryTable f2 = primaryTable f).
  { subst f2 f1. rewrite requestJoins_primaryTable. apply requestJoin_primaryTable. }
  apply findJoin_lookup in Hfind as [Hi _].
  assert (Hi2 : joinedTables f2 !! i = Some spec).
  { rewrite Hext. by apply lookup_app_l_Some. }
  rewrite addJoinsToSelectBuilder_imap.
  apply elem_of_app. right. apply elem_of_app. left.
  apply list_elem_of_fmap. eexists. split; [done |].
  apply list_elem_of_lookup. exists i.
  by rewrite list_lookup_imap, Hi2, Hprimary.
Qed.

End JoinProperties.

(** ** Functional predicate translators *)

Lemma count_pretty_N_go x s : Str.count "?" (pretty_N_go x s) = Str.count "?" s.
Proof.
  revert s. induction (N.lt_wf_0 x) as [x _ IH]; intros s.
  assert (x = 0 \/ 0 < x)%N as [-> | Hpos] by lia.
  - by rewrite pretty_N_go_0.
  - rewrite pretty_N_go_step by done. rewrite IH by (by apply N.div_lt).
    cbn [Str.count]. unfold pretty_N_char. by repeat case_match.
Qed.

Lemma count_itoa n : Str.count "?" (Str.itoa n) = 0.
Proof.
  unfold Str.itoa, pretty, pretty_nat, pretty, pretty_N.
  case_decide; [done |]. by rewrite count_pretty_N_go.
Qed.

Lemma aliasName_noQuestionMark secondary i : noQuestionMark (aliasName secondary i).
Proof.
  unfold noQuestionMark, aliasName. destruct (String.eqb secondary "_user"); [done |].
  by rewrite count_app, count_itoa.
Qed.

Lemma aliasName_not_empty secondary i : String.eqb (aliasName secondary i) "" = false.
Proof. unfold aliasName. by destruct (String.eqb secondary "_user"). Qed.

Lemma createLeftJoin_alias secondary primaryCol secondaryCol f :
  exists i, fst (createLeftJoin secondary primaryCol secondaryCol f) = aliasName secondary i.
Proof.
  destruct (requestJoin_spec {| secondaryTable := secondary; primaryColumn := primaryCol;
                                secondaryColumn := secondaryCol |} f)
    as (i & _ & _ & _ & Halias).
  by exists i.
Qed.

Lemma userRelationPredicateSqlizer_ToSql_matches outwardAlias inwardAlias user :
  noQuestionMark outwardAlias -> noQuestionMark inwardAlias ->
  String.eqb outwardAlias "" && String.eqb inwardAlias "" = false ->
  exists sql,
    userRelationPredicateSqlizer_ToSql outwardAlias inwardAlias user
    = Return (sql, [VString user], None)
    /\ Str.count "?" sql = 1.
Proof.
  intros Hout Hin Hsome. unfold userRelationPredicateSqlizer_ToSql.
  destruct (String.eqb outwardAlias ""), (String.eqb inwardAlias ""); try done; simpl;
    eexists; (split; [reflexivity |]);
    rewrite !count_app, ?(count_fullQuoteIdentifier outwardAlias),
      ?(count_fullQuoteIdentifier inwardAlias) by done; reflexivity.
Qed.

Lemma knownDirection_cases direction :
  knownDirection direction = true ->
  direction = "" \/ direction = "outward" \/ direction = "inward" \/ direction = "mutual".
Proof.
  unfold knownDirection. rewrite !orb_true_iff, !String.eqb_eq. tauto.
Qed.

(** X6. A UserRelationFunc predicate with the direction outward, inward, mutual
    or none compiles, in every session and for every relation and key path,
    to a fragment with one question mark and one bind argument, the user of
    the function; it does not panic and has no error. *)
Theorem user_relation_fragment
    (f : predicateSqlizerFactory) (keyPath relationName direction user : string) :
  knownDirection direction = true ->
  exists sqlizer f' sql,
    newPredicateSqlizer (userRelationPredicate keyPath relationName direction user) f
    = Return (Ok sqlizer, f')
    /\ ToSql sqlizer = Return (sql, [VString user], None)
    /\ Str.count "?" sql = 1.
Proof.
  intros Hdir%knownDirection_cases.
  cbn. unfold newUserRelationFunctionalPredicateSqlizer.
  set (column := if String.eqb keyPath "_owner" || String.eqb keyPath ""
                 then "_owner_id" else keyPath).
  destruct (createLeftJoin_alias relationName column "right_id" f) as (i & Hout).
  destruct Hdir as [-> | [-> | [-> | ->]]]; cbn.
  - destruct (createLeftJoin relationName column "right_id" f) as [out f1].
    simpl in Hout. subst out.
    destruct (userRelationPredicateSqlizer_ToSql_matches (aliasName relationName i) "" user)
      as (sql & Hsql & Hcount);
      [apply aliasName_noQuestionMark | done | by rewrite aliasName_not_empty |].
    by eexists _, _, sql.
  - destruct (createLeftJoin relationName column "right_id" f) as [out f1].
    simpl in Hout. subst out.
    destruct (userRelationPredicateSqlizer_ToSql_matches (aliasName relationName i) "" user)
      as (sql & Hsql & Hcount);
      [apply aliasName_noQuestionMark | done | by rewrite aliasName_not_empty |].
    by eexists _, _, sql.
  - destruct (createLeftJoin_alias relationName column "left_id" f) as (j & Hin).
    destruct (createLeftJoin relationName column "left_id" f) as [inw f1].
    simpl in Hin. subst inw.
    destruct (userRelationPredicateSqlizer_ToSql_matches "" (aliasName relationName j) user)
      as (sql & Hsql & Hcount);
      [done | apply aliasName_noQuestionMark
       | by rewrite aliasName_not_empty, andb_false_r |].
    by eexists _, _, sql.
  - destruct (createLeftJoin relationName column "right_id" f) as [out f1].
    simpl in Hout. subst out.
    destruct (createLeftJoin_alias relationName column "left_id" f1) as (j & Hin).
    destruct (createLeftJoin relationName column "left_id" f1) as [inw f2].
    simpl in Hin. subst inw.
    destruct (userRelationPredicateSqlizer_ToSql_matches
                (aliasName relationName i) (aliasName relationName j) user)
      as (sql & Hsql & Hcount);
      [apply aliasName_noQuestionMark | apply aliasName_noQuestionMark
       | by rewrite aliasName_not_empty |].
    by eexists _, _, sql.
Qed.

Lemma relationColumn_eq keyPath :
  (if String.eqb keyPath "_owner" || String.eqb keyPath "" then "_owner_id" else keyPath)
  = relationColumn keyPath.
Proof.
  unfold relationColumn.
  destruct (String.eqb_spec keyPath "_owner"), (String.eqb_spec keyPath "");
    simpl; case_decide; try done; tauto.
Qed.

Lemma requestJoin_elem spec f : spec ∈ joinedTables (snd (requestJoin spec f)).
Proof.
  destruct (requestJoin_spec spec f) as (i & _ & _ & Hfind & _).
  by eapply findJoin_elem.
Qed.

Lemma requestJoin_length spec f :
  length (joinedTables (snd (requestJoin spec f))) <= S (length (joinedTables f)).
Proof.
  destruct (requestJoin_changes spec f) as (_ & _ & _ & Hjoins).
  rewrite Hjoins.
  case_bool_decide; rewrite ?length_app; simpl; lia.
Qed.

Lemma requestJoin_keeps x spec f :
  x ∈ joinedTables f -> x ∈ joinedTables (snd (requestJoin spec f)).
Proof.
  destruct (requestJoin_spec spec f) as (i & more & -> & _). set_solver.
Qed.

(** Two requests in a row for two joins that are not both to [_user]: two
    aliases. *)
Lemma requestJoin_next_alias a b f :
  a <> b -> ~ (secondaryTable a = "_user" /\ secondaryTable b = "_user") ->
  fst (requestJoin a f) <> fst (requestJoin b (snd (requestJoin a f))).
Proof.
  intros Hab Huser.
  destruct (requestJoin_spec a f) as (i & more & _ & Hfind & ->).
  destruct (requestJoin_spec b (snd (requestJoin a f)))
    as (j & more' & Hext & Hfindb & ->).
  apply aliasName_inj; [done |].
  apply findJoin_lookup in Hfind as [Hi _].
  apply findJoin_lookup in Hfindb as [Hj _].
  intros ->. rewrite Hext in Hj.
  rewrite (lookup_app_l_Some _ _ _ _ Hi) in Hj. congruence.
Qed.

(** X7. A UserRelationFunc predicate with the direction mutual requests the
    outward and the inward join of the relation, on the column [_owner_id]
    when the key path is empty or [_owner]: both are in the join list
    afterwards, which has at most two entries more than before; and the two
    aliases of the sqlizer are two, unless the relation is the table
    [_user]. *)
Theorem user_relation_mutual_joins
    (f : predicateSqlizerFactory) (keyPath relationName user : string) :
  exists outwardAlias inwardAlias f',
    newPredicateSqlizer (userRelationPredicate keyPath relationName "mutual" user) f
    = Return (Ok (userRelationPredicateSqlizer outwardAlias inwardAlias user), f')
    /\ outwardJoin relationName keyPath ∈ joinedTables f'
    /\ inwardJoin relationName keyPath ∈ joinedTables f'
    /\ length (joinedTables f') <= length (joinedTables f) + 2
    /\ (relationName <> "_user" -> outwardAlias <> inwardAlias).
Proof.
  cbn. unfold newUserRelationFunctionalPredicateSqlizer. cbn.
  rewrite relationColumn_eq.
  change (createLeftJoin relationName (relationColumn keyPath) "right_id" f)
    with (requestJoin (outwardJoin relationName keyPath) f).
  pose proof (requestJoin_elem (outwardJoin relationName keyPath) f) as Hout.
  pose proof (requestJoin_length (outwardJoin relationName keyPath) f) as Hlen1.
  pose proof (requestJoin_next_alias (outwardJoin relationName keyPath)
                (inwardJoin relationName keyPath) f) as Hdistinct.
  destruct (requestJoin (outwardJoin relationName keyPath) f) as [out f1].
  simpl in *.
  change (createLeftJoin relationName (relationColumn keyPath) "left_id" f1)
    with (requestJoin (inwardJoin relationName keyPath) f1).
  pose proof (requestJoin_elem (inwardJoin relationName keyPath) f1) as Hin.
  pose proof (requestJoin_length (inwardJoin relationName keyPath) f1) as Hlen2.
  pose proof (requestJoin_keeps _ (inwardJoin relationName keyPath) f1 Hout) as Hout2.
  destruct (requestJoin (inwardJoin relationName keyPath) f1) as [inw f2].
  simpl in *.
  exists out, inw, f2. repeat split; try done; [lia |].
  intros Hrel. apply Hdistinct; [discriminate | tauto].
Qed.

(** The defaults of a UserRelationFunc: no direction is the direction
    outward, and no key path and the key path [_owner] are the key path
    [_owner_id]. *)
Theorem user_relation_defaults
    (f : predicateSqlizerFactory) (keyPath relationName direction user : string) :
  newPredicateSqlizer (userRelationPredicate keyPath relationName "" user) f
  = newPredicateSqlizer (userRelationPredicate keyPath relationName "outward" user) f
  /\ newPredicateSqlizer (userRelationPredicate "" relationName direction user) f
     = newPredicateSqlizer (userRelationPredicate "_owner_id" relationName direction user) f
  /\ newPredicateSqlizer (userRelationPredicate "_owner" relationName direction user) f
     = newPredicateSqlizer (userRelationPredicate "_owner_id" relationName direction user) f.
Proof. repeat split. Qed.

(** X8. A UserRelationFunc predicate with any other direction gets a sqlizer
    without a join, and the session stays as it was; the sqlizer panics when
    it is asked for its SQL. *)
Theorem user_relation_unknown_direction
    (f : predicateSqlizerFactory) (keyPath relationName direction user : string) :
  knownDirection direction = false ->
  newPredicateSqlizer (userRelationPredicate keyPath relationName direction user) f
  = Return (Ok (userRelationPredicateSqlizer "" "" user), f)
  /\ compile (userRelationPredicate keyPath relationName direction user) f
     = Panic "unexpected value in sqlizer".
Proof.
  unfold knownDirection. rewrite !orb_false_iff. intros [[[Hnone Hout] Hin] Hmutual].
  assert (H : newPredicateSqlizer
                (userRelationPredicate keyPath relationName direction user) f
              = Return (Ok (userRelationPredicateSqlizer "" "" user), f)).
  { cbn. unfold newUserRelationFunctionalPredicateSqlizer.
    by rewrite Hnone, Hout, Hin, Hmutual. }
  split; [exact H |]. unfold compile. by rewrite H.
Qed.

(** The direction [sideways]. *)
Lemma user_relation_unknown_direction_witness :
  newPredicateSqlizer (userRelationPredicate "" "_follow" "sideways" "u1") sampleSession
  = Return (Ok (userRelationPredicateSqlizer "" "" "u1"), sampleSession)
  /\ compile (userRelationPredicate "" "_follow" "sideways" "u1") sampleSession
     = Panic "unexpected value in sqlizer".
Proof.
  apply (user_relation_unknown_direction sampleSession "" "_follow" "sideways" "u1").
  reflexivity.
Defined.

(** The direction mutual in a new session. *)
Lemma user_relation_fragment_witness :
  exists sqlizer f' sql,
    newPredicateSqlizer (userRelationPredicate "" "_follow" "mutual" "u1") sampleSession
    = Return (Ok sqlizer, f')
    /\ ToSql sqlizer = Return (sql, [VString "u1"], None)
    /\ Str.count "?" sql = 1.
Proof.
  apply (user_relation_fragment sampleSession "" "_follow" "mutual" "u1").
  reflexivity.
Defined.

Lemma literalToSQLValue_strings (l : list string) :
  map literalToSQLValue (map VString l) = map VString l.
Proof. induction l as [|x l IH]; simpl; [done | by rewrite IH]. Qed.

Lemma extraColumn_addExtraColumn key fieldType expr f k :
  extraColumn (addExtraColumn key fieldType expr f) k
  = if decide (k = key)
    then Some {| FieldType_Type := fieldType; FieldType_Expression := expr |}
    else extraColumn f k.
Proof.
  unfold extraColumn, addExtraColumn. simpl.
  case_decide as Hk.
  - subst k. by rewrite lookup_insert_eq.
  - rewrite lookup_insert_ne by done. by destruct (extraColumns f).
Qed.

(** X9. In a session on the user record table a UserDiscoverFunc predicate gets
    the sqlizer of [email IN (the emails)] on the alias [_user]: its
    fragment has one question mark for each email (or is [IN (NULL)] when
    there is none) and the emails are its arguments, in order. The session
    afterwards has the join to [_user] in its list and the two transient
    columns registered, each a string column of user data; its other extra
    columns are as before. *)
Theorem user_discover_on_user_table_effect
    (f : predicateSqlizerFactory) (args : list (string * list string)) :
  database_UserRecordType (db f) = primaryTable f ->
  exists sqlizer f',
    newPredicateSqlizer (userDiscoverPredicate args) f = Return (Ok sqlizer, f')
    /\ ToSql sqlizer
       = Return (fullQuoteIdentifier "_user" "email" +:+ " IN "
                   +:+ (match ArgsByName args "email" with
                        | [] => "(NULL)"
                        | emails => "(" +:+ Placeholders (length emails) +:+ ")"
                        end),
                 ArgsByName args "email", None)
    /\ userJoin ∈ joinedTables f'
    /\ extraColumn f' "_transient__email" = Some (transientColumn "email")
    /\ extraColumn f' "_transient__username" = Some (transientColumn "username")
    /\ (forall key, key <> "_transient__email" -> key <> "_transient__username" ->
        extraColumn f' key = extraColumn f key).
Proof.
  intros Huser. cbn. unfold newUserDiscoverFunctionalPredicateSqlizer.
  rewrite Huser, String.eqb_refl. cbn [negb].
  change (createLeftJoin "_user" "_id" "id" f) with (requestJoin userJoin f).
  pose proof (requestJoin_elem userJoin f) as Hjoin.
  destruct (requestJoin_changes userJoin f) as (_ & _ & Hextra & _).
  destruct (createLeftJoin_alias "_user" "_id" "id" f) as (i & Halias).
  change (createLeftJoin "_user" "_id" "id" f) with (requestJoin userJoin f) in Halias.
  destruct (requestJoin userJoin f) as [alias f1]. simpl in *. subst alias.
  change (aliasName "_user" i) with "_user".
  eexists _, _. split; [reflexivity |]. split; [| split; [| split; [| split]]].
  - cbn. unfold literalToSQLOperand, ArgsByName.
    destruct (find _ args) as [[name emails]|]; simpl; [| done].
    destruct emails as [|email emails]; [done |].
    cbn [map length Nat.ltb Nat.leb]. by rewrite literalToSQLValue_strings.
  - done.
  - rewrite !extraColumn_addExtraColumn. by repeat case_decide.
  - rewrite !extraColumn_addExtraColumn. by repeat case_decide.
  - intros key Hemail Hname. rewrite !extraColumn_addExtraColumn.
    repeat case_decide; try done. unfold extraColumn. by rewrite Hextra.
Qed.

(** A discovery by two emails in a new session on the table [user]. *)
Lemma user_discover_on_user_table_effect_witness :
  exists sqlizer f',
    newPredicateSqlizer
      (userDiscoverPredicate [("email", ["a@example.com"; "b@example.com"])]) userSession
    = Return (Ok sqlizer, f')
    /\ ToSql sqlizer
       = Return (fullQuoteIdentifier "_user" "email" +:+ " IN (?,?)",
                 [VString "a@example.com"; VString "b@example.com"], None)
    /\ userJoin ∈ joinedTables f'
    /\ extraColumn f' "_transient__email" = Some (transientColumn "email")
    /\ extraColumn f' "_transient__username" = Some (transientColumn "username")
    /\ (forall key, key <> "_transient__email" -> key <> "_transient__username" ->
        extraColumn f' key = extraColumn userSession key).
Proof.
  apply (user_discover_on_user_table_effect userSession
           [("email", ["a@example.com"; "b@example.com"])]).
  reflexivity.
Defined.

(** ** Extra columns and the type map *)

Lemma updateTypemap_lookup_eq
    (typemap : gmap string FieldType) (f : predicateSqlizerFactory) (key : string) :
  updateTypemap typemap f !! key
  = match extraColumn f key with
    | Some field => Some field
    | None => typemap !! key
    end.
Proof.
  unfold updateTypemap, extraColumn.
  destruct (extraColumns f) as [m|]; [| done].
  rewrite lookup_union. by destruct (m !! key), (typemap !! key).
Qed.



(** ** Errors and panics of the predicate compiler *)

Lemma childSqlizers_first_error before q after f sqlizers f1 err f2 :
  childSqlizers newPredicateSqlizer before f = Return (Ok sqlizers, f1) ->
  newPredicateSqlizer q f1 = Return (Err err, f2) ->
  childSqlizers newPredicateSqlizer (before ++ ChildPredicate q :: after) f
  = Return (Err err, f2).
Proof.
  revert f sqlizers. induction before as [|c before IH]; intros f sqlizers; simpl.
  - intros [= _ <-] Hq. by rewrite Hq.
  - destruct c as [p | e]; [| done].
    destruct (newPredicateSqlizer p f) as [[[s | err'] f'] | msg]; try done.
    destruct (childSqlizers newPredicateSqlizer before f')
      as [[[ss | err'] f''] | msg] eqn:Hbefore; try done.
    intros [= _ <-] Hq. by rewrite (IH _ _ Hbefore Hq).
Qed.

(** X12. An And or an Or whose children compile up to a child that gets an error
    gets this error, with the session as that child left it; the children
    after it are not looked at, whatever they are. *)
Theorem compound_first_error
    (op : Operator) (before after : list Child) (q : Predicate)
    (f f1 f2 : predicateSqlizerFactory) (sqlizers : list Sqlizer) (err : error) :
  op = And \/ op = Or ->
  childSqlizers newPredicateSqlizer before f = Return (Ok sqlizers, f1) ->
  newPredicateSqlizer q f1 = Return (Err err, f2) ->
  newPredicateSqlizer (MkPredicate op (before ++ ChildPredicate q :: after)) f
  = Return (Err err, f2).
Proof.
  intros Hop Hbefore Hq.
  pose proof (childSqlizers_first_error before q after f sqlizers f1 err f2 Hbefore Hq)
    as Hchildren.
  cbn [newPredicateSqlizer].
  assert (Hempty : IsEmpty (MkPredicate op (before ++ ChildPredicate q :: after)) = false).
  { destruct Hop as [-> | ->]; by destruct before. }
  rewrite Hempty. destruct Hop as [-> | ->]; simpl; by rewrite Hchildren.
Qed.

(** An And of a comparison, a discovery of users and a key path, in a session
    on the table [note]. *)
Lemma compound_first_error_witness :
  newPredicateSqlizer (MkPredicate And discoverChildren) sampleSession
  = Return (Err UserDiscoverOnNonUserRecord, sampleSession).
Proof.
  apply (compound_first_error And [ChildPredicate (equalsOne "a")]
           [ChildExpression (keyPathExpression "b")]
           (userDiscoverPredicate [("email", ["a@example.com"])])
           sampleSession sampleSession sampleSession
           [comparisonPredicateSqlizer "note" (equalsOne "a")]
           UserDiscoverOnNonUserRecord).
  - by left.
  - reflexivity.
  - reflexivity.
Defined.

(** X13. A predicate with an operator that is none of the thirteen, and with a
    child, gets the error of the comparison operators when it is compiled,
    with an empty fragment and the session as it was; its children are not
    looked at. *)
Theorem unknown_operator_error
    (f : predicateSqlizerFactory) (n : Z) (children : list Child) :
  n <> 0%Z -> children <> [] ->
  compile (MkPredicate (OtherOperator n) children) f
  = Return (("", [], Some (ComparisonOperatorNotSupported (OtherOperator n))), f).
Proof.
  intros Hn Hchildren. unfold compile. cbn [newPredicateSqlizer].
  assert (Hempty : IsEmpty (MkPredicate (OtherOperator n) children) = false).
  { simpl. destruct n; try done; by destruct children. }
  by rewrite Hempty.
Qed.

(** The operator 99 over a key path. *)
Lemma unknown_operator_error_witness :
  compile (MkPredicate (OtherOperator 99) [ChildExpression (keyPathExpression "a")])
    sampleSession
  = Return (("", [], Some (ComparisonOperatorNotSupported (OtherOperator 99))),
            sampleSession).
Proof.
  apply (unknown_operator_error sampleSession 99
           [ChildExpression (keyPathExpression "a")]); discriminate.
Defined.

Lemma expressionSqlizer_ToSql_outcome (alias : string) (e : Expression) :
  match expressionSqlizer_ToSql alias e with
  | Return (_, _, err) => err = None /\ supportedExpression e = true
  | Panic _ => supportedExpression e = false
  end.
Proof.
  destruct e as [ty v]. unfold expressionSqlizer_ToSql, supportedExpression. simpl.
  destruct ty.
  - by destruct (literalToSQLOperand v).
  - by destruct v.
  - destruct v as [| | | | | | |fn]; try done. by destruct fn.
Qed.

Lemma expression_supported alias e :
  supportedExpression e = true ->
  exists sql args, expressionSqlizer_ToSql alias e = Return (sql, args, None).
Proof.
  intros Hsup. pose proof (expressionSqlizer_ToSql_outcome alias e) as H.
  destruct (expressionSqlizer_ToSql alias e) as [[[sql args] err] | msg].
  - destruct H as [-> _]. by exists sql, args.
  - congruence.
Qed.

Lemma expression_unsupported alias e :
  supportedExpression e = false ->
  exists msg, expressionSqlizer_ToSql alias e = Panic msg.
Proof.
  intros Hsup. pose proof (expressionSqlizer_ToSql_outcome alias e) as H.
  destruct (expressionSqlizer_ToSql alias e) as [[[sql args] err] | msg].
  - destruct H as [_ H]. congruence.
  - by exists msg.
Qed.


Lemma newPredicateSqlizer_comparison op c children f :
  isComparison op = true ->
  newPredicateSqlizer (MkPredicate op (c :: children)) f
  = Return (Ok (comparisonPredicateSqlizer (primaryTable f)
                  (MkPredicate op (c :: children))), f).
Proof. by destruct op. Qed.

Lemma comparisonPredicateSqlizer_ToSql_outcome alias op children :
  isComparison op = true ->
  match comparisonPredicateSqlizer_ToSql alias (MkPredicate op children) with
  | Return (_, _, err) => err = None /\ comparisonChildren children = true
  | Panic _ => comparisonChildren children = false
  end.
Proof.
  intros Hop. unfold comparisonPredicateSqlizer_ToSql.
  cbn [Predicate_Operator Predicate_Children].
  rewrite (isComparison_IsBinary op Hop).
  destruct (comparisonOperatorSQL_comparison op Hop) as (opSQL & -> & _).
  destruct children as [|[q1 | lhs] children]; [done | done |].
  destruct children as [|[q2 | rhs] rest]; [done | done |].
  cbn [childExpression lookup list_lookup comparisonChildren].
  destruct (supportedExpression lhs) eqn:HL.
  - destruct (expression_supported alias lhs HL) as (sqlL & argsL & ->).
    destruct (supportedExpression rhs) eqn:HR.
    + by destruct (expression_supported alias rhs HR) as (sqlR & argsR & ->).
    + by destruct (expression_unsupported alias rhs HR) as (msg & ->).
  - by destruct (expression_unsupported alias lhs HL) as (msg & ->).
Qed.

(** X15. One of the eight comparisons compiles exactly when its first two
    children are expressions the expression compiler returns for: then it
    has no error and leaves the session as it was, and otherwise it panics.
    It never returns an error, and children after the second are not looked
    at. *)
Theorem comparison_compiles_or_panics
    (f : predicateSqlizerFactory) (op : Operator) (children : list Child) :
  isComparison op = true ->
  match compile (MkPredicate op children) f with
  | Return ((_, _, err), f') => err = None /\ f' = f /\ comparisonChildren children = true
  | Panic _ => comparisonChildren children = false
  end.
Proof.
  intros Hop. unfold compile.
  destruct children as [|c children].
  - by destruct op.
  - rewrite newPredicateSqlizer_comparison by done. cbn [ToSql].
    pose proof (comparisonPredicateSqlizer_ToSql_outcome (primaryTable f) op
                  (c :: children) Hop) as H.
    destruct (comparisonPredicateSqlizer_ToSql (primaryTable f)
                (MkPredicate op (c :: children))) as [[[sql args] err] | msg]; [| done].
    by destruct H.
Qed.

(** The comparison of a key path with a literal, and its three children
    beyond need. *)
Lemma comparison_compiles_or_panics_witness :
  match compile (MkPredicate LessThan
                   [ChildExpression (keyPathExpression "a");
                    ChildExpression (literalExpression (VInt 1));
                    ChildPredicate (equalsOne "b")]) sampleSession with
  | Return ((_, _, err), f') =>
      err = None /\ f' = sampleSession
      /\ comparisonChildren [ChildExpression (keyPathExpression "a");
                             ChildExpression (literalExpression (VInt 1));
                             ChildPredicate (equalsOne "b")] = true
  | Panic _ =>
      comparisonChildren [ChildExpression (keyPathExpression "a");
                          ChildExpression (literalExpression (VInt 1));
                          ChildPredicate (equalsOne "b")] = false
  end.
Proof.
  apply (comparison_compiles_or_panics sampleSession LessThan
           [ChildExpression (keyPathExpression "a");
            ChildExpression (literalExpression (VInt 1));
            ChildPredicate (equalsOne "b")]).
  reflexivity.
Defined.

(** X16. An In compiles exactly when its first two children are a literal and a
    key path with a string value, in one order or the other: then it has no
    error and leaves the session as it was, and otherwise it panics. It
    never returns an error. *)
Theorem contains_compiles_or_panics (f : predicateSqlizerFactory) (children : list Child) :
  match compile (MkPredicate In children) f with
  | Return ((_, _, err), f') => err = None /\ f' = f /\ containsChildren children = true
  | Panic _ => containsChildren children = false
  end.
Proof.
  unfold compile.
  destruct children as [|c1 children]; [done |].
  cbn [newPredicateSqlizer IsEmpty]. cbn [ToSql bool_decide IsCompound].
  change (bool_decide (In = Functional)) with false.
  change (bool_decide (In = In)) with true. cbv iota. cbn [ToSql].
  unfold containsComparisonPredicateSqlizer_ToSql. cbn [Predicate_Children].
  destruct c1 as [q1 | lhs]; [done |].
  destruct children as [|[q2 | rhs] rest]; [done | done |].
  cbn [childExpression lookup list_lookup containsChildren]. unfold supportedInPair.
  destruct (Expression_Type lhs) eqn:HtL, (Expression_Type rhs) eqn:HtR; try done.
  - (* literal, key path *)
    destruct (supportedExpression rhs) eqn:HR.
    + destruct (expression_supported (primaryTable f) rhs HR) as (sqlR & argsR & ->).
      assert (HL : supportedExpression lhs = true).
      { unfold supportedExpression. by rewrite HtL. }
      by destruct (expression_supported (primaryTable f) lhs HL) as (sqlL & argsL & ->).
    + by destruct (expression_unsupported (primaryTable f) rhs HR) as (msg & ->).
  - (* key path, literal *)
    destruct (supportedExpression lhs) eqn:HL.
    + destruct (expression_supported (primaryTable f) lhs HL) as (sqlL & argsL & ->).
      assert (HR : supportedExpression rhs = true).
      { unfold supportedExpression. by rewrite HtR. }
      by destruct (expression_supported (primaryTable f) rhs HR) as (sqlR & argsR & ->).
    + by destruct (expression_unsupported (primaryTable f) lhs HL) as (msg & ->).
Qed.

(** X17. A functional predicate gets a sqlizer or an error exactly when its first
    child is a function expression of a UserRelationFunc or a
    UserDiscoverFunc; with any other first child, or with none,
    [newPredicateSqlizer] panics. *)
Theorem functional_predicate_returns_or_panics
    (f : predicateSqlizerFactory) (children : list Child) :
  match newPredicateSqlizer (MkPredicate Functional children) f with
  | Return _ => functionalChildren children = true
  | Panic _ => functionalChildren children = false
  end.
Proof.
  destruct children as [|c children]; [done |].
  cbn [newPredicateSqlizer IsEmpty].
  change (bool_decide (Functional = Functional)) with true. cbv iota.
  unfold newFunctionalPredicateSqlizer. cbn [Predicate_Children].
  destruct c as [q | e]; [done |].
  cbn [childExpression lookup list_lookup functionalChildren].
  destruct (Expression_Type e); try done.
  destruct (Expression_Value e) as [| | | | | | |fn]; try done.
  destruct fn as [| | |keyPath relationName relationDirection user|args]; try done.
  - cbn [predicateFunction]. unfold newUserRelationFunctionalPredicateSqlizer.
    destruct (if _ || _ then createLeftJoin _ _ "right_id" f else _) as [out f0].
    by destruct (if _ || _ then createLeftJoin _ _ "left_id" f0 else _) as [inw f1].
  - cbn [predicateFunction]. unfold newUserDiscoverFunctionalPredicateSqlizer.
    destruct (negb _); [done |]. by destruct (createLeftJoin "_user" "_id" "id" f).
Qed.

(** ** Access-control predicate builder *)

Lemma count_encodeByte b :
  Str.count "?" (JSON.encodeByte b) = if Ascii.eqb b "?" then 1 else 0.
Proof. by destruct b as [[] [] [] [] [] [] [] []]. Qed.

Lemma count_encodeBytes s : Str.count "?" (JSON.encodeBytes s) = Str.count "?" s.
Proof.
  induction s as [|b s IH]; [done |].
  cbn [JSON.encodeBytes Str.count]. by rewrite count_app, count_encodeByte, IH.
Qed.

Lemma count_Marshal s : Str.count "?" (fst (JSON.Marshal s)) = Str.count "?" s.
Proof.
  unfold JSON.Marshal. cbn [fst]. rewrite !count_app, count_encodeBytes.
  change (Str.count "?" Str.dq) with 0. lia.
Qed.

Lemma count_roleClauses roles :
  Forall noQuestionMark roles -> Str.count "?" (roleClauses roles) = 0.
Proof.
  induction 1 as [|role roles Hrole _ IH]; [done |].
  cbn [roleClauses]. unfold roleClause.
  rewrite !count_app, count_Marshal, Hrole, IH. reflexivity.
Qed.

(** X18. The access-control fragment has as many question marks as bind
    arguments (one of each with a user id, none without one) when neither the
    user id nor a role name has a question mark in it. *)
Theorem access_fragment_placeholders
    (databaseID : string) (user : UserInfo) (level : ACLLevel) :
  noQuestionMark (UserInfo_ID user) ->
  Forall noQuestionMark (UserInfo_Roles user) ->
  exists sql args,
    ToSql (accessPredicateSqlizer databaseID user level) = Return (sql, args, None)
    /\ Str.count "?" sql = length args
    /\ length args = if String.eqb (UserInfo_ID user) "" then 0 else 1.
Proof.
  intros Hid Hroles. cbn [ToSql]. rewrite accessPredicateSqlizer_ToSql_eq.
  destruct (String.eqb (UserInfo_ID user) ""); eexists _, _; (split; [reflexivity |]).
  - done.
  - split; [| done]. unfold accessFragment.
    rewrite !count_app, count_Marshal, count_roleClauses, Hid by done. reflexivity.
Qed.

(** The user alice with the role admin. *)
Lemma access_fragment_placeholders_witness :
  exists sql args,
    ToSql (accessPredicateSqlizer "_public" alice "read") = Return (sql, args, None)
    /\ Str.count "?" sql = length args
    /\ length args = 1.
Proof.
  apply (access_fragment_placeholders "_public" alice "read").
  - reflexivity.
  - repeat constructor.
Defined.

(** ** Sort compiler *)

Section SortOutcomes.

Variable fmt_f : float64 -> string.
Variable Sprintf0 : string -> string.


(** X20. The key path of a sort comes before its function: a sort with a key path
    and a function compiles as the sort with the key path alone. *)
Theorem sort_key_path_first
    (alias keyPath : string) (fn : Func) (order : SortOrder) :
  keyPath <> "" ->
  sortOrderBySQL fmt_f Sprintf0 alias
    {| Sort_KeyPath := keyPath; Sort_Func := Some fn; Sort_Order := order |}
  = sortOrderBySQL fmt_f Sprintf0 alias
      {| Sort_KeyPath := keyPath; Sort_Func := None; Sort_Order := order |}.
Proof.
  intros Hkp%String.eqb_neq. unfold sortOrderBySQL, sortExpr. simpl. by rewrite Hkp.
Qed.

End SortOutcomes.

(** A sort with the key path [name] and a count. *)
Lemma sort_key_path_first_witness :
  sortOrderBySQL Fmt.verb_f Fmt.verbatim "note"
    {| Sort_KeyPath := "name"; Sort_Func := Some (CountFunc true); Sort_Order := Desc |}
  = sortOrderBySQL Fmt.verb_f Fmt.verbatim "note"
      {| Sort_KeyPath := "name"; Sort_Func := None; Sort_Order := Desc |}.
Proof.
  apply (sort_key_path_first Fmt.verb_f Fmt.verbatim "note" "name" (CountFunc true) Desc).
  discriminate.
Defined.

(** ** Witnesses of the properties of the session *)


Lemma compilation_keeps_joins_distinct_witness :
  NoDup (joinedTables (requestJoins [followOutward; followInward] sampleSession)).
Proof.
  apply (compilation_keeps_joins_distinct relationAndComparison sampleSession
           (requestJoins [followOutward; followInward] sampleSession)
           (Ok (SqAnd [userRelationPredicateSqlizer "_t0" "_t1" "u1";
                       comparisonPredicateSqlizer "note" (equalsOne "a")]))).
  - apply NoDup_nil_2.
  - reflexivity.
Defined.
